(** * nclupdates: the cruise price watcher of [script.py]

    A shallow embedding of [script.py] and the properties its
    specification states about it.

    Layout:
    - [Text]      Python [str] values as lists of Unicode code points;
    - [Re]        the regular expressions of [parse_price] and [re.search];
    - [PyFloat]   Python [float] (IEEE 754 binary64): [float()], [+], [==],
                  the [:,.Nf] format and [repr];
    - [Json]      the values, [json.loads] and [json.dump] of the snapshot;
    - [Soup]      the document tree that BeautifulSoup hands to the script;
    - [Extractor] [parse_price] and its three strategies;
    - [Store]     [load_last] and [save_last] over a file system;
    - [Monitor]   [fetch_html], [send_telegram] and the loop of [run]. *)

From Stdlib Require Import ZArith NArith List Bool Lia String Ascii.
From Stdlib Require Import Floats.SpecFloat.
From stdpp Require Import gmap.
Import ListNotations.

(* ===================================================================== *)
(** * Text *)
(* ===================================================================== *)

Module Text.
Local Open Scope N_scope.

(** A Python [str] is a sequence of Unicode code points. *)
Definition codepoint := N.
Definition pystr := list codepoint.

(** ASCII literals of the source, written as Rocq strings. *)
Definition py (s : string) : pystr := map N_of_ascii (list_ascii_of_string s).

Definition cp_eqb (a b : codepoint) : bool := N.eqb a b.

(** The same with every apostrophe standing for a double quote, for
    literals that hold JSON or HTML. *)
Definition pyq (s : string) : pystr :=
  map (fun c => if N.eqb c 39 then 34 else c) (py s).

Fixpoint str_eqb (a b : pystr) : bool :=
  match a, b with
  | [], [] => true
  | x :: a', y :: b' => cp_eqb x y && str_eqb a' b'
  | _, _ => false
  end.

Fixpoint starts_with (p s : pystr) : bool :=
  match p, s with
  | [], _ => true
  | x :: p', y :: s' => cp_eqb x y && starts_with p' s'
  | _ :: _, [] => false
  end.

(** [needle in haystack] *)
Fixpoint contains (needle hay : pystr) : bool :=
  starts_with needle hay ||
  match hay with
  | [] => false
  | _ :: hay' => contains needle hay'
  end.

(** [replace] of every comma by nothing (lines 108, 133, 143, 167, 181). *)
Definition remove_commas (s : pystr) : pystr :=
  List.filter (fun c => negb (cp_eqb c 44)) s.

Definition in_range (lo hi c : codepoint) : bool := N.leb lo c && N.leb c hi.

Definition is_ascii_digit (c : codepoint) : bool := in_range 48 57 c.

(** [Py_UNICODE_ISSPACE]: what [\s] matches in a [str] pattern and what
    [float()] and [int()] strip. *)
Definition is_space (c : codepoint) : bool :=
  in_range 9 13 c || in_range 28 32 c || cp_eqb c 133 || cp_eqb c 160
  || cp_eqb c 5760 || in_range 8192 8202 c || cp_eqb c 8232 || cp_eqb c 8233
  || cp_eqb c 8239 || cp_eqb c 8287 || cp_eqb c 12288.

(** Simple lower-casing, as [re.I] applies it to the subject character.
    It is exact on every character whose lower case is an ASCII letter
    (A-Z, U+0130 and the Kelvin sign U+212A); the other characters are
    left alone, and their real lower case is never an ASCII letter. *)
Definition sre_lower (c : codepoint) : codepoint :=
  if in_range 65 90 c then (c + 32)
  else if cp_eqb c 304 then 105
  else if cp_eqb c 8490 then 107
  else c.

Definition join (parts : list pystr) : pystr := concat parts.

Lemma cp_eqb_eq a b : cp_eqb a b = true <-> a = b.
Proof. apply N.eqb_eq. Qed.

Lemma str_eqb_eq a b : str_eqb a b = true <-> a = b.
Proof.
  revert b; induction a as [|x a IH]; intros [|y b]; simpl; split; try easy.
  - rewrite andb_true_iff, cp_eqb_eq, IH. now intros [-> ->].
  - intros [= -> ->]. rewrite andb_true_iff, cp_eqb_eq, IH. easy.
Qed.

Lemma str_eqb_refl a : str_eqb a a = true.
Proof. now apply str_eqb_eq. Qed.

End Text.
Import Text.

(* ===================================================================== *)
(** * Regular expressions *)
(* ===================================================================== *)

Module Re.
Local Open Scope N_scope.

(** A character set: what one position of a pattern accepts. *)
Inductive cset :=
  | CChar (c : codepoint)
  | CRange (lo hi : codepoint)
  | CSpace
  | CUnion (a b : cset).

(** Every pattern of the script is a sequence of character sets, each
    with a quantifier, around one capture group. *)
Inductive quant := Q1 | QOpt | QStar | QPlus.

Inductive item :=
  | Atom (cs : cset) (q : quant)
  | GroupStart
  | GroupEnd.

Definition regex := list item.

(** A literal under [re.I]: the subject's lower case is the pattern's, or
    its partner in the table of equal-under-case characters ([i] with
    dotless U+0131, [s] with long U+017F). *)
Definition lit_match (icase : bool) (c ch : codepoint) : bool :=
  if icase then
    let l := sre_lower ch in
    let lc := sre_lower c in
    cp_eqb l lc
    || (cp_eqb lc 105 && cp_eqb l 305)
    || (cp_eqb lc 115 && cp_eqb l 383)
  else cp_eqb ch c.

(** Sets of digits, commas, quotes and spaces hold no cased character:
    [re.I] leaves them as they are. *)
Fixpoint cset_mem (icase : bool) (cs : cset) (ch : codepoint) : bool :=
  match cs with
  | CChar c => lit_match icase c ch
  | CRange lo hi => in_range lo hi ch
  | CSpace => is_space ch
  | CUnion a b => cset_mem icase a ch || cset_mem icase b ch
  end.

(** Group 1 while matching: not yet opened, open (characters taken so
    far, latest first), closed. *)
Inductive gstate :=
  | GBefore
  | GOpen (acc : pystr)
  | GDone (text : pystr).

Definition push (ch : codepoint) (g : gstate) : gstate :=
  match g with
  | GOpen acc => GOpen (ch :: acc)
  | _ => g
  end.

Definition group1 (g : gstate) : pystr :=
  match g with
  | GBefore => []
  | GOpen acc => rev acc
  | GDone t => t
  end.

Section Matcher.
Variable icase : bool.

(** Greedy repetition with backtracking: take the character and go on,
    and only if the rest fails that way stop here. *)
Fixpoint star_greedy (cs : cset) (k : gstate -> pystr -> option pystr)
         (g : gstate) (s : pystr) : option pystr :=
  match s with
  | ch :: s' =>
      if cset_mem icase cs ch then
        match star_greedy cs k (push ch g) s' with
        | Some r => Some r
        | None => k g s
        end
      else k g s
  | [] => k g []
  end.

(** [match_here r g s]: the pattern matches a prefix of [s]; the result
    is the text of group 1. *)
Fixpoint match_here (r : regex) (g : gstate) (s : pystr) : option pystr :=
  match r with
  | [] => Some (group1 g)
  | GroupStart :: r' => match_here r' (GOpen []) s
  | GroupEnd :: r' => match_here r' (GDone (group1 g)) s
  | Atom cs Q1 :: r' =>
      match s with
      | ch :: s' => if cset_mem icase cs ch then match_here r' (push ch g) s' else None
      | [] => None
      end
  | Atom cs QOpt :: r' =>
      match s with
      | ch :: s' =>
          if cset_mem icase cs ch then
            match match_here r' (push ch g) s' with
            | Some x => Some x
            | None => match_here r' g s
            end
          else match_here r' g s
      | [] => match_here r' g []
      end
  | Atom cs QStar :: r' => star_greedy cs (match_here r') g s
  | Atom cs QPlus :: r' =>
      match s with
      | ch :: s' =>
          if cset_mem icase cs ch then star_greedy cs (match_here r') (push ch g) s'
          else None
      | [] => None
      end
  end.

(** [re.search(r, s)]: the leftmost position where the pattern matches;
    [m.group(1)] of the match. *)
Fixpoint search (r : regex) (s : pystr) : option pystr :=
  match match_here r GBefore s with
  | Some x => Some x
  | None =>
      match s with
      | [] => None
      | _ :: s' => search r s'
      end
  end.
End Matcher.

(** A search for one of several literal alternatives (line 127). *)
Definition search_any (alts : list regex) (s : pystr) : bool :=
  existsb (fun r => match search false r s with Some _ => true | None => false end) alts.

(** Line 154: every run of white space becomes one space. *)
Fixpoint collapse_spaces (s : pystr) : pystr :=
  match s with
  | [] => []
  | c :: s' =>
      if is_space c then
        match s' with
        | c' :: _ => if is_space c' then collapse_spaces s' else 32 :: collapse_spaces s'
        | [] => [32]
        end
      else c :: collapse_spaces s'
  end.

(** ** The patterns of [parse_price] *)

Definition lits (s : string) : regex := map (fun c => Atom (CChar c) Q1) (py s).
Definition one (s : string) : item :=
  match py s with
  | c :: _ => Atom (CChar c) Q1
  | [] => GroupStart
  end.

Definition digit_comma : cset := CUnion (CRange 48 57) (CChar 44).
Definition digit : cset := CRange 48 57.
Definition quote : cset := CUnion (CChar 34) (CChar 39).
Definition spaces : item := Atom CSpace QStar.

(** Digits and commas, an optional dot, digits: the amount of lines 106,
    140 and 173-175. *)
Definition amount_cents : regex :=
  [Atom digit_comma QPlus; Atom (CChar 46) QOpt; Atom digit QStar].

(** Line 106: a dollar sign, then group 1, an amount. *)
Definition re_dollar_amount : regex :=
  [one "$"; GroupStart] ++ amount_cents ++ [GroupEnd].

(** Lines 131 and 159: a dollar sign, group 1 of digits and commas, then
    PP / USD with optional spaces around each part. *)
Definition re_fare_pp : regex :=
  [one "$"; GroupStart; Atom digit_comma QPlus; GroupEnd; spaces]
  ++ lits "PP" ++ [spaces; one "/"; spaces] ++ lits "USD".

(** Lines 140 and 173: the label Taxes, fees and port expenses with optional
    spaces between its words, then a dollar sign and group 1, an amount. *)
Definition re_taxes : regex :=
  lits "Taxes," ++ [spaces] ++ lits "fees" ++ [spaces] ++ lits "and" ++ [spaces]
  ++ lits "port" ++ [spaces] ++ lits "expenses" ++ [spaces]
  ++ re_dollar_amount.

(** Line 174: the same behind a plus sign. *)
Definition re_plus_taxes : regex := [one "+"; spaces] ++ re_taxes.

(** Line 160: the quoted key price, a colon, and group 1 of digits and
    commas between double quotes. *)
Definition re_json_price : regex :=
  [Atom (CChar 34) Q1] ++ lits "price" ++ [Atom (CChar 34) Q1; one ":"; spaces;
   Atom (CChar 34) Q1; GroupStart; Atom digit_comma QPlus; GroupEnd; Atom (CChar 34) Q1].

(** Line 161: priceFrom, an optional quote, a colon, an optional quote,
    group 1 of digits and commas. *)
Definition re_price_from : regex :=
  lits "priceFrom" ++ [Atom quote QOpt; spaces; one ":"; spaces; Atom quote QOpt;
   GroupStart; Atom digit_comma QPlus; GroupEnd].

(** Line 175: taxesAndFees, an optional quote, a colon, an optional quote,
    group 1, an amount. *)
Definition re_taxes_and_fees : regex :=
  lits "taxesAndFees" ++ [Atom quote QOpt; spaces; one ":"; spaces; Atom quote QOpt;
   GroupStart] ++ amount_cents ++ [GroupEnd].

(** Line 127: price, cost or fare. *)
Definition re_price_class : list regex := [lits "price"; lits "cost"; lits "fare"].

End Re.

Example re_fare_whole_dollars :
  Re.search true Re.re_fare_pp (py "from $1,899 PP / USD today") = Some (py "1,899").
Proof. vm_compute. reflexivity. Qed.

Example re_fare_cents :
  Re.search true Re.re_fare_pp (py "$1,899.50 PP / USD") = None.
Proof. vm_compute. reflexivity. Qed.

Example re_taxes_sample :
  Re.search true Re.re_taxes (py "+ Taxes, fees and port expenses $493.55 USD")
  = Some (py "493.55").
Proof. vm_compute. reflexivity. Qed.

(* ===================================================================== *)
(** * What the whole-dollar fare pattern accepts *)
(* ===================================================================== *)

Module ReFacts.
Import Re.
Local Open Scope N_scope.

(** The characters of an amount written with cents: digits, the comma
    and the dot. *)
Definition amount_char (c : codepoint) : bool :=
  is_ascii_digit c || cp_eqb c 44 || cp_eqb c 46.

Definition is_digit_or_comma (c : codepoint) : bool :=
  is_ascii_digit c || cp_eqb c 44.

Definition is_dollar (c : codepoint) : bool := cp_eqb c 36.

Ltac bprop :=
  rewrite ?orb_true_iff, ?orb_false_iff, ?andb_true_iff, ?andb_false_iff,
    ?negb_true_iff, ?negb_false_iff, ?N.leb_le, ?N.leb_gt, ?N.eqb_eq, ?N.eqb_neq in *.

Ltac cp_cases :=
  unfold amount_char, is_digit_or_comma, is_dollar, is_ascii_digit, is_space,
    in_range, cp_eqb in *;
  bprop; try lia.

Lemma sre_lower_below_letters c : c < 65 -> sre_lower c = c.
Proof.
  intros H. unfold sre_lower, in_range, cp_eqb.
  destruct (N.leb_spec 65 c); [lia|]. simpl.
  destruct (N.eqb_spec c 304); [lia|].
  destruct (N.eqb_spec c 8490); [lia|]. reflexivity.
Qed.

Lemma sre_lower_into_low ch c : sre_lower ch = c -> c < 65 -> ch = c.
Proof.
  unfold sre_lower, in_range, cp_eqb.
  destruct (N.leb_spec 65 ch), (N.leb_spec ch 90); simpl; try lia;
    destruct (N.eqb_spec ch 304); try lia;
    destruct (N.eqb_spec ch 8490); lia.
Qed.

(** A pattern character below the letters is matched by itself alone,
    with or without [re.I]. *)
Lemma lit_match_uncased b c ch :
  c < 65 -> lit_match b c ch = cp_eqb ch c.
Proof.
  intros Hc. destruct b; [|reflexivity]. unfold lit_match.
  rewrite (sre_lower_below_letters _ Hc).
  apply eq_true_iff_eq. unfold cp_eqb. bprop. split.
  - intros [[H|[H _]]|[H _]]; try lia.
    now apply sre_lower_into_low.
  - intros ->. left; left. now apply sre_lower_below_letters.
Qed.

Lemma digit_comma_mem b c :
  cset_mem b digit_comma c = is_digit_or_comma c.
Proof.
  unfold digit_comma. cbn [cset_mem].
  rewrite lit_match_uncased by lia. reflexivity.
Qed.

Lemma amount_char_not_space c : amount_char c = true -> is_space c = false.
Proof. intros H. cp_cases. Qed.

Lemma amount_char_not_P c : amount_char c = true -> lit_match true 80 c = false.
Proof.
  intros H. unfold lit_match.
  assert (Hc : c < 65) by (clear -H; cp_cases).
  rewrite (sre_lower_below_letters _ Hc).
  change (sre_lower 80) with 112. unfold cp_eqb. bprop. lia.
Qed.

Lemma digit_or_comma_amount c : is_digit_or_comma c = true -> amount_char c = true.
Proof. intros H. cp_cases. Qed.

Lemma digit_or_comma_not_dollar c :
  is_digit_or_comma c = true -> negb (is_dollar c) = true.
Proof. intros H. cp_cases. Qed.

(** What follows group 1 in the fare pattern: optional spaces, then PP. *)
Definition after_amount : regex :=
  [GroupEnd; spaces] ++ lits "PP" ++ [spaces; one "/"; spaces] ++ lits "USD".

Lemma after_amount_stuck g c s :
  amount_char c = true -> match_here true after_amount g (c :: s) = None.
Proof.
  intros H. unfold after_amount. cbn [app match_here spaces star_greedy cset_mem].
  rewrite (amount_char_not_space _ H).
  change (lits "PP") with [Atom (CChar 80) Q1; Atom (CChar 80) Q1].
  cbn [app match_here cset_mem].
  now rewrite (amount_char_not_P _ H).
Qed.

(** Backtracking over the digits cannot help: whatever prefix of them the
    group keeps, the next character is a digit, a comma or the dot. *)
Lemma digits_then_dot_stuck d rest g :
  forallb is_digit_or_comma d = true ->
  star_greedy true digit_comma (match_here true after_amount) g (d ++ 46 :: rest) = None.
Proof.
  revert g. induction d as [|c d IH]; intros g Hd; cbn [app star_greedy].
  - rewrite digit_comma_mem.
    replace (is_digit_or_comma 46) with false by reflexivity.
    apply after_amount_stuck. reflexivity.
  - cbn [forallb] in Hd. apply andb_true_iff in Hd as [Hc Hd].
    rewrite digit_comma_mem, Hc, IH by assumption.
    apply after_amount_stuck. now apply digit_or_comma_amount.
Qed.

Lemma fare_pp_unfold g c s :
  match_here true re_fare_pp g (c :: s) =
  if lit_match true 36 c then
    match s with
    | ch :: s' =>
        if cset_mem true digit_comma ch
        then star_greedy true digit_comma (match_here true after_amount) (GOpen [ch]) s'
        else None
    | [] => None
    end
  else None.
Proof. reflexivity. Qed.

Lemma fare_pp_nil g : match_here true re_fare_pp g [] = None.
Proof. reflexivity. Qed.

Lemma fare_pp_needs_dollar g c s :
  is_dollar c = false -> match_here true re_fare_pp g (c :: s) = None.
Proof.
  intros H. rewrite fare_pp_unfold.
  rewrite lit_match_uncased by lia. unfold is_dollar in H. now rewrite H.
Qed.

(** No match starts inside a text without a dollar sign. *)
Lemma fare_pp_search_no_dollar s :
  forallb (fun c => negb (is_dollar c)) s = true ->
  search true re_fare_pp s = None.
Proof.
  induction s as [|c s IH]; intros H.
  - reflexivity.
  - simpl in H. apply andb_true_iff in H as [Hc Hs].
    apply negb_true_iff in Hc.
    cbn [search]. rewrite (fare_pp_needs_dollar GBefore _ _ Hc). now apply IH.
Qed.

Lemma fare_pp_at_cents d rest :
  forallb is_digit_or_comma d = true ->
  match_here true re_fare_pp GBefore (36 :: d ++ 46 :: rest) = None.
Proof.
  intros Hd. rewrite fare_pp_unfold.
  replace (lit_match true 36 36) with true by reflexivity.
  destruct d as [|c d]; [reflexivity|].
  simpl in Hd. apply andb_true_iff in Hd as [Hc Hd].
  cbn [app]. rewrite digit_comma_mem, Hc.
  now apply digits_then_dot_stuck.
Qed.

Lemma search_app_no_dollar pre s :
  forallb (fun c => negb (is_dollar c)) pre = true ->
  search true re_fare_pp (pre ++ s) = search true re_fare_pp s.
Proof.
  induction pre as [|c pre IH]; intros H; [reflexivity|].
  simpl in H. apply andb_true_iff in H as [Hc Hs]. apply negb_true_iff in Hc.
  cbn [app search]. rewrite (fare_pp_needs_dollar GBefore _ _ Hc). now apply IH.
Qed.

End ReFacts.

(** C10 - The base-fare pattern of strategy 2 (line 131) and the first
    base-fare pattern of strategy 3 (line 159) are the same pattern, and it
    accepts whole-dollar amounts only. At a dollar sign followed by digits
    and commas and then a dot (an amount written with cents, whatever
    follows it) the pattern does not match; and in a text whose only dollar
    sign is that one, [re.search] finds nothing, so no base fare is taken
    from it. *)
Theorem fare_pattern_rejects_cents :
  forall (d rest : pystr),
    forallb ReFacts.is_digit_or_comma d = true ->
    Re.match_here true Re.re_fare_pp Re.GBefore (py "$" ++ d ++ py "." ++ rest) = None
    /\ (forall pre,
          forallb (fun c => negb (ReFacts.is_dollar c)) pre = true ->
          forallb (fun c => negb (ReFacts.is_dollar c)) rest = true ->
          Re.search true Re.re_fare_pp (pre ++ py "$" ++ d ++ py "." ++ rest) = None).
Proof.
  intros d rest Hd. split.
  - apply (ReFacts.fare_pp_at_cents d rest Hd).
  - intros pre Hpre Hrest.
    rewrite ReFacts.search_app_no_dollar by assumption.
    change (py "$" ++ d ++ py "." ++ rest) with (36%N :: d ++ 46%N :: rest).
    cbn [Re.search]. rewrite (ReFacts.fare_pp_at_cents d rest Hd).
    assert (Hs : forallb (fun c => negb (ReFacts.is_dollar c)) (d ++ 46%N :: rest) = true).
    { rewrite forallb_app. apply andb_true_iff. split.
      - clear -Hd. induction d as [|c d IH]; [reflexivity|].
        simpl in *. apply andb_true_iff in Hd as [Hc Hd].
        rewrite (IH Hd), andb_true_r. now apply ReFacts.digit_or_comma_not_dollar.
      - simpl. exact Hrest. }
    now apply ReFacts.fare_pp_search_no_dollar.
Qed.

Lemma fare_pattern_rejects_cents_witness :
  Re.match_here true Re.re_fare_pp Re.GBefore
    (py "$" ++ py "1,899" ++ py "." ++ py "50 PP / USD") = None
  /\ Re.search true Re.re_fare_pp
       (py "from " ++ py "$" ++ py "1,899" ++ py "." ++ py "50 PP / USD") = None.
Proof.
  destruct (fare_pattern_rejects_cents (py "1,899") (py "50 PP / USD") eq_refl) as [H1 H2].
  split; [exact H1 | exact (H2 (py "from ") eq_refl eq_refl)].
Defined.

(* ===================================================================== *)
(** * Python floats *)
(* ===================================================================== *)

Module PyFloat.
Local Open Scope Z_scope.

(** A Python [float] is an IEEE 754 binary64 number. *)
Definition prec : Z := 53.
Definition emax : Z := 1024.
Definition pyfloat := spec_float.

Definition nan : pyfloat := S754_nan.
Definition inf (neg : bool) : pyfloat := S754_infinity neg.
Definition zero (neg : bool) : pyfloat := S754_zero neg.

(** [a + b] and [a == b] *)
Definition add (a b : pyfloat) : pyfloat := SFadd prec emax a b.
Definition eqb (a b : pyfloat) : bool := SFeqb a b.

Definition is_finite (x : pyfloat) : bool :=
  match x with
  | S754_zero _ | S754_finite _ _ _ => true
  | _ => false
  end.


(** Round [q + r / den] (with [0 <= r < den]) to the nearest integer, a
    tie to the even one. *)
Definition round_half_even (q r den : Z) : Z :=
  match Z.compare (2 * r) den with
  | Lt => q
  | Gt => q + 1
  | Eq => if Z.even q then q else q + 1
  end.

(** How far [n / d] is scaled up before it is rounded: by [2 ^ s] with
    enough binary places for a 53-bit quotient, and never more than the
    1074 places of the smallest float. *)
Definition binary_places (n d : Z) : Z :=
  Z.min 1074 (Z.max 0 (53 - (Z.log2 n - Z.log2 d))).

(** [n / d] rounded at the scale [2 ^ s]: the unit of the last place of
    the result is [2 ^ (ulp_exp - s)]. *)
Definition nearest_at (s : Z) (neg : bool) (n d : Z) : pyfloat :=
  let n' := n * 2 ^ s in
  let ulp_exp := Z.max (Z.log2 (n' / d) - 52) 0 in
  let den := d * 2 ^ ulp_exp in
  let m := round_half_even (n' / den) (n' mod den) den in
  if m =? 0 then S754_zero neg
  else
    let '(m', e') := if m =? 2 ^ 53 then (2 ^ 52, ulp_exp + 1) else (m, ulp_exp) in
    if e' - s >? 971 then S754_infinity neg
    else S754_finite neg (Z.to_pos m') (e' - s).

(** The binary64 number nearest to [n / d] ([n], [d] positive), a tie to
    the even mantissa: what [float()] makes of a decimal numeral. *)
Definition nearest (neg : bool) (n d : Z) : pyfloat :=
  nearest_at (binary_places n d) neg n d.

(** The float of the decimal numeral [digits * 10 ^ exp10]. *)
Definition of_decimal (neg : bool) (digits exp10 : Z) : pyfloat :=
  if digits =? 0 then S754_zero neg
  else if 0 <=? exp10 then nearest neg (digits * 10 ^ exp10) 1
  else nearest neg digits (10 ^ (- exp10)).

(** [float(n)] for an [int]: [OverflowError] beyond the largest float. *)
Definition of_int (n : Z) : option pyfloat :=
  match of_decimal (n <? 0) (Z.abs n) 0 with
  | S754_infinity _ => None
  | x => Some x
  end.

(** The exact value of a finite float as [num / 2 ^ 1074]. *)
Definition scaled_value (m : positive) (e : Z) : Z := Zpos m * 2 ^ (e + 1074).

(** The exact value of a finite float, times [2 ^ 1074]. *)
Definition exact_value (x : pyfloat) : Z :=
  match x with
  | S754_finite s m e => if s then - scaled_value m e else scaled_value m e
  | _ => 0
  end.

(** [x == n] for a float and an [int]: the values are compared exactly. *)
Definition eqb_int (x : pyfloat) (n : Z) : bool :=
  is_finite x && (exact_value x =? n * 2 ^ 1074).

End PyFloat.

Example nearest_49355 :
  PyFloat.of_decimal false 49355 (-2)
  = SFdiv 53 1024 (S754_finite false 49355 0) (S754_finite false 100 0).
Proof. vm_compute. reflexivity. Qed.

Example nearest_third :
  PyFloat.nearest false 1 3 = SFdiv 53 1024 (S754_finite false 1 0) (S754_finite false 3 0).
Proof. vm_compute. reflexivity. Qed.

Example nearest_tiny :
  PyFloat.of_decimal false 5 (-324) = S754_finite false 1 (-1074)
  /\ PyFloat.of_decimal false 2 (-324) = S754_zero false
  /\ PyFloat.of_decimal false 18 307 = S754_infinity false
  /\ PyFloat.of_decimal false 17976931348623157 292
     = S754_finite false 9007199254740991 971.
Proof. vm_compute. repeat split. Qed.

(* ===================================================================== *)
(** * Floats and text: [float(str)], the [f] format, [repr] *)
(* ===================================================================== *)

Module Numeral.
Import PyFloat.
Local Open Scope Z_scope.

Definition digit_val (c : codepoint) : Z := Z.of_N c - 48.
Definition digit_chr (d : Z) : codepoint := Z.to_N (48 + d).

(** The number written by a string of ASCII digits. *)
Definition digits_value (s : pystr) : Z :=
  fold_left (fun acc c => acc * 10 + digit_val c) s 0.

Fixpoint Z_digits_fuel (fuel : nat) (n : Z) (acc : pystr) : pystr :=
  match fuel with
  | O => acc
  | S f =>
      let acc' := digit_chr (n mod 10) :: acc in
      if n / 10 =? 0 then acc' else Z_digits_fuel f (n / 10) acc'
  end.

(** The decimal digits of [n >= 0]. *)
Definition Z_digits (n : Z) : pystr :=
  Z_digits_fuel (S (Z.to_nat (Z.log2 n))) n [].

Definition num_digits (n : Z) : Z := Z.of_nat (length (Z_digits n)).

Definition zeros (k : Z) : pystr := repeat 48%N (Z.to_nat k).

Definition pad_left (width : nat) (s : pystr) : pystr :=
  repeat 48%N (width - length s) ++ s.

Definition ascii_lower (c : codepoint) : codepoint :=
  if in_range 65%N 90%N c then (c + 32)%N else c.

Fixpoint lstrip (s : pystr) : pystr :=
  match s with
  | c :: s' => if is_space c then lstrip s' else s
  | [] => []
  end.

Definition strip (s : pystr) : pystr := rev (lstrip (rev (lstrip s))).

(** An underscore may only stand between two digits. *)
Fixpoint underscores_ok (prev : codepoint) (s : pystr) : bool :=
  match s with
  | [] => negb (cp_eqb prev 95%N)
  | c :: s' =>
      (if cp_eqb c 95%N then is_ascii_digit prev
       else negb (cp_eqb prev 95%N) || is_ascii_digit c)
      && underscores_ok c s'
  end.

Definition drop_underscores (s : pystr) : pystr :=
  List.filter (fun c => negb (cp_eqb c 95%N)) s.

Fixpoint span_digits (s : pystr) : pystr * pystr :=
  match s with
  | c :: s' =>
      if is_ascii_digit c then let '(d, r) := span_digits s' in (c :: d, r)
      else ([], s)
  | [] => ([], [])
  end.

Definition take_sign (s : pystr) : bool * pystr :=
  match s with
  | 45%N :: s' => (true, s')
  | 43%N :: s' => (false, s')
  | _ => (false, s)
  end.

(** The exponent part: [e], an optional sign and digits; without digits
    it is not an exponent and the [e] is left unread. *)
Definition take_exponent (s : pystr) : Z * pystr :=
  match s with
  | c :: s' =>
      if cp_eqb (ascii_lower c) 101%N then
        let '(neg, s'') := take_sign s' in
        match span_digits s'' with
        | ([], _) => (0, s)
        | (d, r) => ((if neg then - digits_value d else digits_value d), r)
        end
      else (0, s)
  | [] => (0, [])
  end.

(** A decimal numeral: digits, an optional dot and digits, an optional
    exponent; at least one digit before the exponent. *)
Definition decimal_numeral (neg : bool) (s : pystr) : option pyfloat :=
  let '(ip, r1) := span_digits s in
  let '(fp, r2) :=
    match r1 with
    | 46%N :: r => span_digits r
    | _ => ([], r1)
    end in
  match ip ++ fp with
  | [] => None
  | ds =>
      let '(ex, r3) := take_exponent r2 in
      match r3 with
      | [] => Some (of_decimal neg (digits_value ds) (ex - Z.of_nat (length fp)))
      | _ => None
      end
  end.

(** [float(s)] for a string: [None] is [ValueError]. Decimal digits
    beyond ASCII, which Python also reads, are not digits here. *)
Definition float_of_str (s : pystr) : option pyfloat :=
  let t := strip s in
  if underscores_ok 0%N t then
    let '(neg, body) := take_sign (drop_underscores t) in
    let low := map ascii_lower body in
    if str_eqb low (py "inf") || str_eqb low (py "infinity") then Some (inf neg)
    else if str_eqb low (py "nan") then Some nan
    else decimal_numeral neg body
  else None.

(** [int(s)]: [None] is [ValueError]; ASCII digits as above. *)
Definition int_of_str (s : pystr) : option Z :=
  let t := strip s in
  if underscores_ok 0%N t then
    let '(neg, body) := take_sign (drop_underscores t) in
    match span_digits body with
    | (c :: d, []) => Some (if neg then - digits_value (c :: d) else digits_value (c :: d))
    | _ => None
    end
  else None.

(** [b ^ k], and one for a negative [k]. *)
Definition pow_pos_part (b k : Z) : Z := b ^ Z.max 0 k.

(** The value [m * 2 ^ e] of a finite float times [10 ^ p], for [e] and
    [p] of either sign, as a fraction [num / den]. *)
Definition scale10 (m : positive) (e : Z) (p : Z) : Z * Z :=
  (Zpos m * pow_pos_part 2 e * pow_pos_part 10 p,
   pow_pos_part 2 (- e) * pow_pos_part 10 (- p)).

(** ** The [,.Nf] format *)

Fixpoint group3 (rev_digits : pystr) : pystr :=
  match rev_digits with
  | a :: b :: c :: (_ :: _) as rest => a :: b :: c :: 44%N :: group3 rest
  | _ => rev_digits
  end.

(** Commas between the thousands. *)
Definition group_thousands (digits : pystr) : pystr := rev (group3 (rev digits)).

Definition sign_str (neg : bool) : pystr := if neg then py "-" else [].

Definition fixed_digits (decimals : nat) (r : Z) : pystr :=
  let p := 10 ^ Z.of_nat decimals in
  group_thousands (Z_digits (r / p))
  ++ match decimals with
     | O => []
     | _ => py "." ++ pad_left decimals (Z_digits (r mod p))
     end.

(** [format(x, ',.Nf')]: the exact value rounded to [N] decimals, a tie
    to the even digit. *)
Definition format_f (decimals : nat) (x : pyfloat) : pystr :=
  match x with
  | S754_nan => py "nan"
  | S754_infinity s => sign_str s ++ py "inf"
  | S754_zero s => sign_str s ++ fixed_digits decimals 0
  | S754_finite s m e =>
      let '(num, den) := scale10 m e (Z.of_nat decimals) in
      sign_str s ++ fixed_digits decimals (round_half_even (num / den) (num mod den) den)
  end.

(** ** [repr] *)

(** The position of the decimal point: [10 ^ (k - 1) <= x < 10 ^ k]. It
    is the number of digits of the integer part; below one, the value is
    first scaled by a power of ten that brings it above one. *)
Definition decpt (m : positive) (e : Z) : Z :=
  let j := if (0 <=? e) || (2 ^ (- e) <=? Zpos m) then 0 else num_digits (2 ^ (- e)) in
  let '(num, den) := scale10 m e j in
  num_digits (num / den) - j.

Definition reads_back (m : positive) (e : Z) (c p : Z) : bool :=
  match of_decimal false c p with
  | S754_finite _ m' e' => (Zpos m' =? Zpos m) && (e' =? e)
  | _ => false
  end.

(** The numeral of [n] digits for [x] (with its decimal point at [k]), if
    one reads back as [x]: of the two that bracket [x], the one that does;
    if both do, the nearer. *)
Definition candidate (m : positive) (e : Z) (k n : Z) : option (Z * Z) :=
  let '(num, den) := scale10 m e (n - k) in
  let f := num / den in
  let r := num mod den in
  let lo_ok := reads_back m e f (k - n) in
  let hi_ok := negb (r =? 0) && reads_back m e (f + 1) (k - n) in
  match lo_ok, hi_ok with
  | true, true => Some (round_half_even f r den, k - n)
  | true, false => Some (f, k - n)
  | false, true => Some (f + 1, k - n)
  | false, false => None
  end.

Fixpoint shortest_from (m : positive) (e : Z) (k n : Z) (tries : nat) : Z * Z :=
  match tries with
  | O =>
      let '(num, den) := scale10 m e (17 - k) in
      (round_half_even (num / den) (num mod den) den, k - 17)
  | S t =>
      match candidate m e k n with
      | Some c => c
      | None => shortest_from m e k (n + 1) t
      end
  end.

(** The shortest numeral that reads back as [x]: 1 to 16 digits if some
    numeral of that length does, and 17 digits otherwise. *)
Definition shortest (m : positive) (e : Z) : Z * Z :=
  shortest_from m e (decpt m e) 1 16.

Fixpoint strip_trailing_zeros_rev (r : pystr) (dropped : Z) : pystr * Z :=
  match r with
  | 48%N :: (_ :: _) as r' => strip_trailing_zeros_rev r' (dropped + 1)
  | _ => (rev r, dropped)
  end.

(** [repr] lays the digits out plainly when the decimal point falls within
    them or near them, and with an exponent otherwise. *)
Definition render (digits : pystr) (k : Z) : pystr :=
  let n := Z.of_nat (length digits) in
  if (k <=? -4) || (16 <? k) then
    let ex := k - 1 in
    firstn 1 digits
    ++ match skipn 1 digits with [] => [] | tl => py "." ++ tl end
    ++ py "e" ++ (if ex <? 0 then py "-" else py "+")
    ++ pad_left 2 (Z_digits (Z.abs ex))
  else if k <=? 0 then py "0." ++ zeros (- k) ++ digits
  else if n <=? k then digits ++ zeros (k - n) ++ py ".0"
  else firstn (Z.to_nat k) digits ++ py "." ++ skipn (Z.to_nat k) digits.

Definition repr_finite (m : positive) (e : Z) : pystr :=
  let '(c, p) := shortest m e in
  let '(ds, dropped) := strip_trailing_zeros_rev (rev (Z_digits c)) 0 in
  render ds (Z.of_nat (length ds) + dropped + p).

(** [repr(x)], which is also [float.__repr__] as [json] calls it. *)
Definition repr (x : pyfloat) : pystr :=
  match x with
  | S754_nan => py "nan"
  | S754_infinity s => sign_str s ++ py "inf"
  | S754_zero s => sign_str s ++ py "0.0"
  | S754_finite s m e => sign_str s ++ repr_finite m e
  end.

End Numeral.

Definition f1899 : PyFloat.pyfloat := PyFloat.of_decimal false 1899 0.
Definition f1999 : PyFloat.pyfloat := PyFloat.of_decimal false 1999 0.
Definition f493_55 : PyFloat.pyfloat := PyFloat.of_decimal false 49355 (-2).

Example float_of_str_samples :
  Numeral.float_of_str (py "1899") = Some f1899
  /\ Numeral.float_of_str (py " 493.55 ") = Some f493_55
  /\ Numeral.float_of_str (py "4.9355e2") = Some f493_55
  /\ Numeral.float_of_str (py "1_899.") = Some f1899
  /\ Numeral.float_of_str (py "-Infinity") = Some (PyFloat.inf true)
  /\ Numeral.float_of_str (py "") = None
  /\ Numeral.float_of_str (py ".") = None
  /\ Numeral.float_of_str (py "1e") = None
  /\ Numeral.float_of_str (py "1,899") = None.
Proof. vm_compute. repeat split. Qed.

Example format_samples :
  Numeral.format_f 0 f1899 = py "1,899"
  /\ Numeral.format_f 2 f493_55 = py "493.55"
  /\ Numeral.format_f 2 (PyFloat.add f1999 f493_55) = py "2,492.55"
  /\ Numeral.format_f 2 (PyFloat.of_decimal false 5 (-3)) = py "0.01"
  /\ Numeral.format_f 2 (PyFloat.of_decimal false 125 (-3)) = py "0.12"
  /\ Numeral.format_f 0 (PyFloat.of_decimal false 25 (-1)) = py "2"
  /\ Numeral.format_f 0 (PyFloat.of_decimal true 12345675 (-1)) = py "-1,234,568".
Proof. vm_compute. repeat split. Qed.

Example repr_samples :
  Numeral.repr f1899 = py "1899.0"
  /\ Numeral.repr f493_55 = py "493.55"
  /\ Numeral.repr (PyFloat.add f1999 f493_55) = py "2492.55"
  /\ Numeral.repr (PyFloat.add (PyFloat.of_decimal false 1 (-1)) (PyFloat.of_decimal false 2 (-1)))
     = py "0.30000000000000004"
  /\ Numeral.repr (PyFloat.of_decimal false 1 16) = py "1e+16"
  /\ Numeral.repr (PyFloat.of_decimal false 1 15) = py "1000000000000000.0"
  /\ Numeral.repr (PyFloat.of_decimal false 1 (-4)) = py "0.0001"
  /\ Numeral.repr (PyFloat.of_decimal false 15 (-6)) = py "1.5e-05"
  /\ Numeral.repr (PyFloat.of_decimal false 25 (-20)) = py "2.5e-19".
Proof. vm_compute. repeat split. Qed.

(* ===================================================================== *)
(** * JSON: the values, [json.loads], [json.dump] *)
(* ===================================================================== *)

Module Json.
Import PyFloat Numeral.
Local Open Scope N_scope.

(** What [json.loads] returns: [None], [bool], [int], [float], [str],
    [list], and [dict] with its keys in insertion order. *)
#[warnings="-register-all"]
Inductive json :=
  | JNull
  | JBool (b : bool)
  | JInt (n : Z)
  | JFloat (x : pyfloat)
  | JStr (s : pystr)
  | JArr (items : list json)
  | JObj (pairs : list (pystr * json)).

(** [d[k] = v]: a key already there keeps its place and takes the value. *)
Fixpoint dict_set (k : pystr) (v : json) (d : list (pystr * json)) : list (pystr * json) :=
  match d with
  | [] => [(k, v)]
  | (k', v') :: d' => if str_eqb k' k then (k, v) :: d' else (k', v') :: dict_set k v d'
  end.

(** [d.get(k)] *)
Fixpoint dict_get (k : pystr) (d : list (pystr * json)) : option json :=
  match d with
  | [] => None
  | (k', v) :: d' => if str_eqb k' k then Some v else dict_get k d'
  end.

Definition is_json_space (c : codepoint) : bool :=
  cp_eqb c 32 || cp_eqb c 9 || cp_eqb c 10 || cp_eqb c 13.

Fixpoint skip_ws (s : pystr) : pystr :=
  match s with
  | c :: s' => if is_json_space c then skip_ws s' else s
  | [] => []
  end.

Definition hex_val (c : codepoint) : option N :=
  if in_range 48 57 c then Some (c - 48)
  else if in_range 97 102 c then Some (c - 87)
  else if in_range 65 70 c then Some (c - 55)
  else None.

Definition hex4 (a b c d : codepoint) : option N :=
  match hex_val a, hex_val b, hex_val c, hex_val d with
  | Some x, Some y, Some z, Some w => Some (((x * 16 + y) * 16 + z) * 16 + w)
  | _, _, _, _ => None
  end.

(** The character after a backslash, other than [u]. *)
Definition unescape (c : codepoint) : option codepoint :=
  if cp_eqb c 34 || cp_eqb c 92 || cp_eqb c 47 then Some c
  else if cp_eqb c 98 then Some 8
  else if cp_eqb c 102 then Some 12
  else if cp_eqb c 110 then Some 10
  else if cp_eqb c 114 then Some 13
  else if cp_eqb c 116 then Some 9
  else None.

(** The text of a string after its opening quote, and what follows the
    closing quote. A high surrogate escape followed by a low one is one
    character. *)
Fixpoint scanstring (s : pystr) (acc : pystr) : option (pystr * pystr) :=
  match s with
  | [] => None
  | c :: s' =>
      if cp_eqb c 34 then Some (rev acc, s')
      else if cp_eqb c 92 then
        match s' with
        | e :: s2 =>
            if cp_eqb e 117 then
              match s2 with
              | h1 :: h2 :: h3 :: h4 :: s3 =>
                  match hex4 h1 h2 h3 h4 with
                  | None => None
                  | Some u =>
                      match s3 with
                      | b :: u' :: g1 :: g2 :: g3 :: g4 :: s4 =>
                          match hex4 g1 g2 g3 g4 with
                          | Some u2 =>
                              if in_range 55296 56319 u && cp_eqb b 92 && cp_eqb u' 117
                                 && in_range 56320 57343 u2
                              then scanstring s4
                                     ((65536 + ((u - 55296) * 1024 + (u2 - 56320))) :: acc)
                              else scanstring s3 (u :: acc)
                          | None => scanstring s3 (u :: acc)
                          end
                      | _ => scanstring s3 (u :: acc)
                      end
                  end
              | _ => None
              end
            else
              match unescape e with
              | Some ch => scanstring s2 (ch :: acc)
              | None => None
              end
        | [] => None
        end
      else if N.ltb c 32 then None
      else scanstring s' (c :: acc)
  end.

(** The number at the head of [s]: an optional minus, [0] or a numeral
    without a leading zero, then an optional fraction and an optional
    exponent, each taken only when its digits are there. *)
Definition scan_number (s : pystr) : option (json * pystr) :=
  let '(neg, s1) := match s with 45 :: t => (true, t) | _ => (false, s) end in
  let sign := if neg then [45] else [] in
  match s1 with
  | c :: t =>
      if is_ascii_digit c then
        let '(ip, r1) :=
          if cp_eqb c 48 then ([c], t) else let '(d, r) := span_digits t in (c :: d, r) in
        let '(frac, r2) :=
          match r1 with
          | 46 :: r =>
              match span_digits r with
              | ([], _) => ([], r1)
              | (d, r') => (46 :: d, r')
              end
          | _ => ([], r1)
          end in
        let '(ex, r3) :=
          match r2 with
          | e :: r =>
              if cp_eqb e 101 || cp_eqb e 69 then
                let '(sg, r') :=
                  match r with
                  | 45 :: r' => ([45], r')
                  | 43 :: r' => ([43], r')
                  | _ => ([], r)
                  end in
                match span_digits r' with
                | ([], _) => ([], r2)
                | (d, r'') => (e :: sg ++ d, r'')
                end
              else ([], r2)
          | [] => ([], r2)
          end in
        match frac, ex with
        | [], [] => Some (JInt (if neg then (- digits_value ip)%Z else digits_value ip), r3)
        | _, _ =>
            match float_of_str (sign ++ ip ++ frac ++ ex) with
            | Some x => Some (JFloat x, r3)
            | None => None
            end
        end
      else None
  | [] => None
  end.

Definition strip_prefix (p s : pystr) : option pystr :=
  if starts_with p s then Some (skipn (length p) s) else None.

(** [scan_once]: the value at the head of [s] and the rest. [fuel] bounds
    the nesting; [loads] gives enough for any text. *)
Fixpoint scan_value (fuel : nat) (s : pystr) : option (json * pystr) :=
  match fuel with
  | O => None
  | S f =>
      match s with
      | [] => None
      | c :: s' =>
          if cp_eqb c 34 then
            match scanstring s' [] with
            | Some (t, r) => Some (JStr t, r)
            | None => None
            end
          else if cp_eqb c 123 then
            match skip_ws s' with
            | 125 :: r => Some (JObj [], r)
            | r => match scan_pairs f r [] with
                   | Some (d, r') => Some (JObj d, r')
                   | None => None
                   end
            end
          else if cp_eqb c 91 then
            match skip_ws s' with
            | 93 :: r => Some (JArr [], r)
            | r => match scan_items f r [] with
                   | Some (l, r') => Some (JArr l, r')
                   | None => None
                   end
            end
          else
            match strip_prefix (py "null") s, strip_prefix (py "true") s,
                  strip_prefix (py "false") s with
            | Some r, _, _ => Some (JNull, r)
            | _, Some r, _ => Some (JBool true, r)
            | _, _, Some r => Some (JBool false, r)
            | None, None, None =>
                match scan_number s with
                | Some res => Some res
                | None =>
                    match strip_prefix (py "NaN") s, strip_prefix (py "Infinity") s,
                          strip_prefix (py "-Infinity") s with
                    | Some r, _, _ => Some (JFloat nan, r)
                    | _, Some r, _ => Some (JFloat (inf false), r)
                    | _, _, Some r => Some (JFloat (inf true), r)
                    | None, None, None => None
                    end
                end
            end
      end
  end

(** The items of an array after [[]: a value, then [,] and more, or []]. *)
with scan_items (fuel : nat) (s : pystr) (acc : list json) : option (list json * pystr) :=
  match fuel with
  | O => None
  | S f =>
      match scan_value f s with
      | None => None
      | Some (v, r) =>
          match skip_ws r with
          | 93 :: r' => Some (rev (v :: acc), r')
          | 44 :: r' => scan_items f (skip_ws r') (v :: acc)
          | _ => None
          end
      end
  end

(** The pairs of an object after [{]: a quoted key, [:], a value, then
    [,] and more, or [}]. *)
with scan_pairs (fuel : nat) (s : pystr) (acc : list (pystr * json))
  : option (list (pystr * json) * pystr) :=
  match fuel with
  | O => None
  | S f =>
      match s with
      | 34 :: s' =>
          match scanstring s' [] with
          | None => None
          | Some (k, r) =>
              match skip_ws r with
              | 58 :: r1 =>
                  match scan_value f (skip_ws r1) with
                  | None => None
                  | Some (v, r2) =>
                      match skip_ws r2 with
                      | 125 :: r3 => Some (dict_set k v acc, r3)
                      | 44 :: r3 => scan_pairs f (skip_ws r3) (dict_set k v acc)
                      | _ => None
                      end
                  end
              | _ => None
              end
          end
      | _ => None
      end
  end.

(** [json.loads(s)]: [None] is [json.JSONDecodeError]. *)
Definition loads (s : pystr) : option json :=
  match s with
  | 65279 :: _ => None
  | _ =>
      match scan_value (2 * length s + 2) (skip_ws s) with
      | Some (v, r) => match skip_ws r with [] => Some v | _ => None end
      | None => None
      end
  end.

(** ** [json.dump(data, f, indent=2)] *)

Definition hex_digit (n : N) : codepoint := if N.ltb n 10 then 48 + n else 87 + n.

Definition u_escape (n : N) : pystr :=
  [92; 117; hex_digit (n / 4096); hex_digit (n / 256 mod 16);
   hex_digit (n / 16 mod 16); hex_digit (n mod 16)].

(** One character of a string, written in ASCII. *)
Definition encode_char (c : codepoint) : pystr :=
  if cp_eqb c 34 then [92; 34]
  else if cp_eqb c 92 then [92; 92]
  else if in_range 32 126 c then [c]
  else if cp_eqb c 8 then [92; 98]
  else if cp_eqb c 12 then [92; 102]
  else if cp_eqb c 10 then [92; 110]
  else if cp_eqb c 13 then [92; 114]
  else if cp_eqb c 9 then [92; 116]
  else if N.ltb c 65536 then u_escape c
  else
    let v := c - 65536 in
    u_escape (55296 + (v / 1024) mod 1024) ++ u_escape (56320 + v mod 1024).

Definition encode_string (s : pystr) : pystr :=
  [34] ++ flat_map encode_char s ++ [34].

Definition encode_int (n : Z) : pystr :=
  (if (n <? 0)%Z then [45] else []) ++ Z_digits (Z.abs n).

(** [floatstr]: JavaScript's names for the three that are no numbers, and
    [float.__repr__] for the rest. *)
Definition encode_float (x : pyfloat) : pystr :=
  match x with
  | S754_nan => py "NaN"
  | S754_infinity false => py "Infinity"
  | S754_infinity true => py "-Infinity"
  | _ => repr x
  end.

Definition newline_indent (level : nat) : pystr :=
  [10] ++ concat (repeat (py "  ") level).

(** The text [json.dump] writes with [indent=2]: every item of a list or
    dict on a line of its own, two more spaces in at each level. *)
Fixpoint encode (level : nat) (v : json) : pystr :=
  match v with
  | JNull => py "null"
  | JBool true => py "true"
  | JBool false => py "false"
  | JInt n => encode_int n
  | JFloat x => encode_float x
  | JStr s => encode_string s
  | JArr [] => py "[]"
  | JArr (v0 :: vs) =>
      [91] ++ newline_indent (S level) ++ encode (S level) v0
      ++ (fix rest (l : list json) : pystr :=
            match l with
            | [] => []
            | w :: l' => [44] ++ newline_indent (S level) ++ encode (S level) w ++ rest l'
            end) vs
      ++ newline_indent level ++ [93]
  | JObj [] => py "{}"
  | JObj ((k0, v0) :: kvs) =>
      [123] ++ newline_indent (S level) ++ encode_string k0 ++ py ": " ++ encode (S level) v0
      ++ (fix rest (l : list (pystr * json)) : pystr :=
            match l with
            | [] => []
            | (k, w) :: l' =>
                [44] ++ newline_indent (S level) ++ encode_string k ++ py ": "
                ++ encode (S level) w ++ rest l'
            end) kvs
      ++ newline_indent level ++ [125]
  end.

Definition dumps_indent2 (v : json) : pystr := encode 0 v.

End Json.

Example loads_samples :
  Json.loads (py "[1899.0, 493.55]") = Some (Json.JArr [Json.JFloat f1899; Json.JFloat f493_55])
  /\ Json.loads (py " 5 ") = Some (Json.JInt 5)
  /\ Json.loads (py "null") = Some Json.JNull
  /\ Json.loads (pyq "{'@type': 'Offer', 'price': '1899', '@type': 1}")
     = Some (Json.JObj [(py "@type", Json.JInt 1); (py "price", Json.JStr (py "1899"))])
  /\ Json.loads (py "[1, [2, {}], -0.5e1, true]")
     = Some (Json.JArr [Json.JInt 1; Json.JArr [Json.JInt 2; Json.JObj []];
                        Json.JFloat (PyFloat.of_decimal true 5 0); Json.JBool true])
  /\ Json.loads (py "[1,]") = None
  /\ Json.loads (py "01") = None
  /\ Json.loads (py "1.") = None
  /\ Json.loads (py "") = None
  /\ Json.loads (py "{not json") = None.
Proof. vm_compute. repeat split. Qed.

Example dumps_samples :
  Json.dumps_indent2 (Json.JArr [Json.JFloat f1899; Json.JFloat f493_55])
  = py "[" ++ [10%N] ++ py "  1899.0," ++ [10%N] ++ py "  493.55" ++ [10%N] ++ py "]"
  /\ Json.loads (Json.dumps_indent2 (Json.JArr [Json.JFloat f1899; Json.JFloat f493_55]))
     = Some (Json.JArr [Json.JFloat f1899; Json.JFloat f493_55])
  /\ Json.dumps_indent2 (Json.JObj [(pyq "a'b", Json.JArr [Json.JInt (-7); Json.JNull])])
     = py "{" ++ [10%N] ++ pyq "  'a\'b': [" ++ [10%N] ++ py "    -7," ++ [10%N]
       ++ py "    null" ++ [10%N] ++ py "  ]" ++ [10%N] ++ py "}".
Proof. vm_compute. repeat split. Qed.

(* ===================================================================== *)
(** * Exceptions *)
(* ===================================================================== *)

Module Py.

(** The exception classes the script meets. *)
Inductive exn_class :=
  | Exception
  | ValueError
  | JSONDecodeError
  | UnicodeDecodeError
  | TypeError
  | AttributeError
  | KeyError
  | OverflowError
  | OSError
  | RequestException
  | HTTPError
  | SystemExit.

Definition class_eqb (a b : exn_class) : bool :=
  match a, b with
  | Exception, Exception | ValueError, ValueError
  | JSONDecodeError, JSONDecodeError | UnicodeDecodeError, UnicodeDecodeError
  | TypeError, TypeError | AttributeError, AttributeError | KeyError, KeyError
  | OverflowError, OverflowError | OSError, OSError
  | RequestException, RequestException | HTTPError, HTTPError
  | SystemExit, SystemExit => true
  | _, _ => false
  end.

(** The base class; [IOError] is a name of [OSError], and the exceptions
    of [requests] derive from it. [SystemExit] is no [Exception]. *)
Definition parent (c : exn_class) : option exn_class :=
  match c with
  | Exception | SystemExit => None
  | JSONDecodeError | UnicodeDecodeError => Some ValueError
  | HTTPError => Some RequestException
  | RequestException => Some OSError
  | _ => Some Exception
  end.

(** [issubclass(c, base)] *)
Definition subclass (c base : exn_class) : bool :=
  class_eqb c base
  || match parent c with
     | None => false
     | Some p =>
         class_eqb p base
         || match parent p with
            | None => false
            | Some p2 =>
                class_eqb p2 base
                || match parent p2 with
                   | None => false
                   | Some p3 => class_eqb p3 base
                   end
            end
     end.

Record exn := mk_exn { exn_cls : exn_class; exn_msg : pystr }.

Inductive result (A : Type) :=
  | Ok (a : A)
  | Raise (e : exn).
Arguments Ok {A} a.
Arguments Raise {A} e.

Definition bind {A B} (r : result A) (k : A -> result B) : result B :=
  match r with
  | Ok a => k a
  | Raise e => Raise e
  end.

(** [except classes:] does it take [e]? *)
Definition caught_by (classes : list exn_class) (e : exn) : bool :=
  existsb (subclass (exn_cls e)) classes.

End Py.

(* ===================================================================== *)
(** * The document tree *)
(* ===================================================================== *)

Module Soup.
Local Open Scope N_scope.

(** What BeautifulSoup builds: tags with their class list, their other
    attributes and their children; strings of text; and the strings that
    [.text] leaves out (comments, script and style data). *)
#[warnings="-register-all"]
Inductive node :=
  | Elem (name : pystr) (classes : list pystr) (attrs : list (pystr * pystr))
         (children : list node)
  | Text (s : pystr)
  | Hidden (s : pystr).

Definition soup := list node.

(** Everything below a tag, in document order. *)
Fixpoint descendants (n : node) : list node :=
  match n with
  | Elem _ _ _ ch =>
      (fix go (l : list node) : list node :=
         match l with
         | [] => []
         | c :: l' => c :: descendants c ++ go l'
         end) ch
  | _ => []
  end.

Definition soup_descendants (s : soup) : list node :=
  flat_map (fun c => c :: descendants c) s.

Definition attr_get (k : pystr) (attrs : list (pystr * pystr)) : option pystr :=
  match find (fun kv => str_eqb (fst kv) k) attrs with
  | Some kv => Some (snd kv)
  | None => None
  end.

Definition is_tag (names : list pystr) (n : node) : bool :=
  match n with
  | Elem nm _ _ _ => existsb (str_eqb nm) names
  | _ => false
  end.

(** [class_='name']: one of the classes is the name. *)
Definition has_class (c : pystr) (n : node) : bool :=
  match n with
  | Elem _ cls _ _ => existsb (str_eqb c) cls
  | _ => false
  end.

(** [class_=re.compile(...)]: the pattern is found in one of the classes. *)
Definition class_matches (alts : list Re.regex) (n : node) : bool :=
  match n with
  | Elem _ cls _ _ => existsb (Re.search_any alts) cls
  | _ => false
  end.

Definition has_attr (k v : pystr) (n : node) : bool :=
  match n with
  | Elem _ _ attrs _ =>
      match attr_get k attrs with
      | Some v' => str_eqb v' v
      | None => false
      end
  | _ => false
  end.

(** [tag.text], [tag.get_text()] *)
Definition text_of (n : node) : pystr :=
  flat_map (fun d => match d with Text s => s | _ => [] end) (descendants n).

(** [tag.string]: the one string a tag holds, directly or through a chain
    of only children. *)
Fixpoint string_of (n : node) : option pystr :=
  match n with
  | Elem _ _ _ [c] =>
      match c with
      | Text s | Hidden s => Some s
      | Elem _ _ _ _ => string_of c
      end
  | _ => None
  end.

Definition find_all_in (l : list node) (p : node -> bool) : list node := List.filter p l.
Definition find_in (l : list node) (p : node -> bool) : option node := find p l.

End Soup.

(* ===================================================================== *)
(** * The field extractor: [parse_price] *)
(* ===================================================================== *)

Module Extractor.
Import Py PyFloat Numeral Json Soup.

(** [float(v)] for what a JSON document can hold. *)
Definition float_of_json (v : json) : result pyfloat :=
  match v with
  | JFloat x => Ok x
  | JInt n =>
      match of_int n with
      | Some x => Ok x
      | None => Raise (mk_exn OverflowError (py "int too large to convert to float"))
      end
  | JBool b => Ok (if b then of_decimal false 1 0 else zero false)
  | JStr s =>
      match float_of_str s with
      | Some x => Ok x
      | None => Raise (mk_exn ValueError (py "could not convert string to float"))
      end
  | _ => Raise (mk_exn TypeError (py "float() argument must be a string or a real number"))
  end.

(** [float(m.group(1).replace(',', ''))] *)
Definition float_of_group (g : pystr) : result pyfloat :=
  float_of_json (JStr (remove_commas g)).

Definition is_disclaimer_div (n : node) : bool :=
  is_tag [py "div"] n && has_class (py "c544_disclaimer") n.

(** Lines 98-109: the first list item of the disclaimer whose first [span]
    shows a dollar amount gives the taxes; [Ok None] when there is none. *)
Definition taxes_in_disclaimer_list (sp : soup) : result (option pyfloat) :=
  match find_in (soup_descendants sp) is_disclaimer_div with
  | None => Ok None
  | Some dv =>
      match find_in (descendants dv)
              (fun n => is_tag [py "ul"] n && has_class (py "c544_disclaimer_list") n) with
      | None => Ok None
      | Some ul =>
          (fix items (l : list node) : result (option pyfloat) :=
             match l with
             | [] => Ok None
             | li :: l' =>
                 match find_in (descendants li) (is_tag [py "span"]) with
                 | None => items l'
                 | Some span =>
                     match text_of span with
                     | [] => items l'
                     | txt =>
                         match Re.search false Re.re_dollar_amount txt with
                         | None => items l'
                         | Some g => bind (float_of_group g) (fun t => Ok (Some t))
                         end
                     end
                 end
             end)
            (find_all_in (descendants ul)
               (fun n => is_tag [py "li"] n && has_class (py "c544_disclaimer_list_item") n))
      end
  end.

(** How the loop over the structured-data blocks ends. *)
Inductive s1_outcome :=
  | S1Return (base taxes : pyfloat)   (* line 109 *)
  | S1Break (base : pyfloat)          (* line 112: a base price without taxes *)
  | S1Exhausted                       (* no block gave a price *)
  | S1Abort (e : exn).                (* line 115: the outer handler *)

Definition is_offer_with_price (d : list (pystr * json)) : bool :=
  match dict_get (py "@type") d with
  | Some (JStr t) => str_eqb t (py "Offer")
  | _ => false
  end
  && match dict_get (py "price") d with Some _ => true | None => false end.

(** Lines 90-114. The inner handler takes [JSONDecodeError], [KeyError]
    and [ValueError] and goes on with the next block; anything else
    leaves the loop for the outer handler. *)
Fixpoint s1_loop (sp : soup) (scripts : list node) : s1_outcome :=
  match scripts with
  | [] => S1Exhausted
  | sc :: rest =>
      match string_of sc with
      | None => S1Abort (mk_exn TypeError (py "the JSON object must be str, bytes or bytearray, not NoneType"))
      | Some txt =>
          match loads txt with
          | None => s1_loop sp rest
          | Some (JObj d) =>
              if is_offer_with_price d then
                match bind (match dict_get (py "price") d with
                            | Some v => float_of_json v
                            | None => Raise (mk_exn KeyError (py "price"))
                            end)
                        (fun base => bind (taxes_in_disclaimer_list sp)
                                       (fun t => Ok (base, t))) with
                | Ok (base, Some taxes) => S1Return base taxes
                | Ok (base, None) => S1Break base
                | Raise e =>
                    if caught_by [JSONDecodeError; KeyError; ValueError] e
                    then s1_loop sp rest
                    else S1Abort e
                end
              else s1_loop sp rest
          | Some _ => S1Abort (mk_exn AttributeError (py "object has no attribute 'get'"))
          end
      end
  end.

Definition is_ld_json_script (n : node) : bool :=
  is_tag [py "script"] n && has_attr (py "type") (py "application/ld+json") n.

Section WithParser.

(** [BeautifulSoup(html, 'html.parser')]: the parser is the library's;
    [None] stands for an exception out of it. *)
Variable BeautifulSoup : pystr -> option soup.

Definition s1_run (html : pystr) : s1_outcome :=
  match BeautifulSoup html with
  | None => S1Abort (mk_exn Exception [])
  | Some sp => s1_loop sp (find_all_in (soup_descendants sp) is_ld_json_script)
  end.

(** Strategy 1 (lines 84-116): the pair, or nothing. *)
Definition strategy1 (html : pystr) : option (pyfloat * pyfloat) :=
  match s1_run html with
  | S1Return base taxes => Some (base, taxes)
  | _ => None
  end.

(** Lines 127-134: the first price-like element whose text shows a
    whole-dollar fare. *)
Fixpoint s2_base (elems : list node) : result (option pyfloat) :=
  match elems with
  | [] => Ok None
  | el :: rest =>
      match text_of el with
      | [] => s2_base rest
      | txt =>
          match Re.search true Re.re_fare_pp txt with
          | Some g => bind (float_of_group g) (fun b => Ok (Some b))
          | None => s2_base rest
          end
      end
  end.

(** Lines 137-143 *)
Definition s2_taxes (sp : soup) : result (option pyfloat) :=
  match find_in (soup_descendants sp) is_disclaimer_div with
  | None => Ok None
  | Some dv =>
      match Re.search true Re.re_taxes (text_of dv) with
      | Some g => bind (float_of_group g) (fun t => Ok (Some t))
      | None => Ok None
      end
  end.

Definition both (b t : option pyfloat) : option (pyfloat * pyfloat) :=
  match b, t with
  | Some b', Some t' => Some (b', t')
  | _, _ => None
  end.

(** What a [try: ... except Exception: pass] block leaves. *)
Definition or_pass {A} (r : result (option A)) : option A :=
  match r with
  | Ok x => x
  | Raise _ => None
  end.

(** Strategy 2 (lines 118-149) *)
Definition strategy2 (html : pystr) : option (pyfloat * pyfloat) :=
  match BeautifulSoup html with
  | None => None
  | Some sp =>
      or_pass
        (bind (s2_base (find_all_in (soup_descendants sp)
                          (fun n => is_tag [py "span"; py "div"; py "p"] n
                                    && class_matches Re.re_price_class n)))
           (fun b => bind (s2_taxes sp) (fun t => Ok (both b t))))
  end.

(** [for pattern in patterns: m = re.search(pattern, text, re.I)]: the
    first pattern that matches decides. *)
Fixpoint first_match (patterns : list Re.regex) (text : pystr) : result (option pyfloat) :=
  match patterns with
  | [] => Ok None
  | p :: rest =>
      match Re.search true p text with
      | Some g => bind (float_of_group g) (fun x => Ok (Some x))
      | None => first_match rest text
      end
  end.

Definition fare_patterns : list Re.regex :=
  [Re.re_fare_pp; Re.re_json_price; Re.re_price_from].

Definition tax_patterns : list Re.regex :=
  [Re.re_taxes; Re.re_plus_taxes; Re.re_taxes_and_fees].

(** Strategy 3 (lines 151-188) *)
Definition strategy3 (html : pystr) : option (pyfloat * pyfloat) :=
  let text := Re.collapse_spaces html in
  or_pass
    (bind (first_match fare_patterns text)
       (fun b => bind (first_match tax_patterns text) (fun t => Ok (both b t)))).

Definition no_price_block : exn :=
  mk_exn ValueError (py "Could not locate price block in HTML using any parsing strategy").

(** [parse_price(html)] *)
Definition parse_price (html : pystr) : result (pyfloat * pyfloat) :=
  match strategy1 html with
  | Some r => Ok r
  | None =>
      match strategy2 html with
      | Some r => Ok r
      | None =>
          match strategy3 html with
          | Some r => Ok r
          | None => Raise no_price_block
          end
      end
  end.

End WithParser.

End Extractor.

(* ===================================================================== *)
(** * The world of the script: files, output, network *)
(* ===================================================================== *)

Module World.
Import Py.
Local Open Scope N_scope.

(** What a path leads to. A regular file holds text, or bytes that are
    no text in the locale's encoding, or cannot be opened for reading. *)
Inductive fnode :=
  | FileText (content : pystr)
  | FileUndecodable
  | FileUnreadable
  | Directory.

(** The file system: its nodes by path, and the paths the system refuses
    to create or to open for writing. *)
Record filesystem := mk_fs {
  nodes : gmap pystr fnode;
  unwritable : gset pystr
}.

Inductive log_level := INFO | ERROR.

Inductive event :=
  | Printed (text : pystr)
  | Logged (level : log_level) (text : pystr)
  | HttpGet (url : pystr)
  | HttpPost (url chat_id text : pystr)
  | Slept (seconds : Z).

Record world := mk_world {
  w_fs : filesystem;
  w_out : list event
}.

(** Computations that read and change the world and may raise. *)
Definition M (A : Type) : Type := world -> result A * world.

Definition ret {A} (a : A) : M A := fun w => (Ok a, w).
Definition raise {A} (e : exn) : M A := fun w => (Raise e, w).
Definition bindM {A B} (m : M A) (k : A -> M B) : M B :=
  fun w => match m w with
           | (Ok a, w') => k a w'
           | (Raise e, w') => (Raise e, w')
           end.
Definition lift {A} (r : result A) : M A := fun w => (r, w).
Definition emit (e : event) : M unit :=
  fun w => (Ok tt, mk_world (w_fs w) (w_out w ++ [e])).
Definition get_fs : M filesystem := fun w => (Ok (w_fs w), w).
Definition put_fs (fs : filesystem) : M unit :=
  fun w => (Ok tt, mk_world fs (w_out w)).

(** [try: body except classes as e: handler(e)] *)
Definition try_except {A} (body : M A) (classes : list exn_class) (handler : exn -> M A) : M A :=
  fun w => match body w with
           | (Raise e, w') => if caught_by classes e then handler e w' else (Raise e, w')
           | r => r
           end.

Notation "'let!' x ':=' m 'in' k" := (bindM m (fun x => k))
  (at level 10, x binder, m at level 200, k at level 200).
Notation "'do!' m 'in' k" := (bindM m (fun _ => k))
  (at level 10, m at level 200, k at level 200).

(** ** Files *)

(** The node at a path; the current directory is always there. *)
Definition node_at (fs : filesystem) (path : pystr) : option fnode :=
  if str_eqb path (py ".") then Some Directory else nodes fs !! path.

(** [os.path.exists(path)] *)
Definition path_exists (fs : filesystem) (path : pystr) : bool :=
  match node_at fs path with
  | Some _ => true
  | None => false
  end.

(** [open(path, "r")] and [f.read()] *)
Definition read_text (path : pystr) : M pystr :=
  fun w =>
    match node_at (w_fs w) path with
    | Some (FileText s) => (Ok s, w)
    | Some FileUndecodable =>
        (Raise (mk_exn UnicodeDecodeError (py "codec can't decode byte")), w)
    | Some FileUnreadable => (Raise (mk_exn OSError (py "Permission denied")), w)
    | Some Directory => (Raise (mk_exn OSError (py "Is a directory")), w)
    | None => (Raise (mk_exn OSError (py "No such file or directory")), w)
    end.

Fixpoint rstrip_slashes_rev (r : pystr) : pystr :=
  match r with
  | 47 :: r' => rstrip_slashes_rev r'
  | _ => r
  end.

Fixpoint drop_tail_rev (r : pystr) : pystr :=
  match r with
  | [] => []
  | c :: r' => if cp_eqb c 47 then r else drop_tail_rev r'
  end.

(** [os.path.dirname(path)]: up to the last slash, without the slashes
    that end it unless it is slashes only. *)
Definition dirname (path : pystr) : pystr :=
  let head_rev := drop_tail_rev (rev path) in
  match rstrip_slashes_rev head_rev with
  | [] => rev head_rev
  | h => rev h
  end.

(** [os.makedirs(d, exist_ok=True)]: the directory is there afterwards,
    unless the system refuses or a file is in its place. The directories
    above it that it creates on the way are not recorded. *)
Definition makedirs (d : pystr) : M unit :=
  fun w =>
    let fs := w_fs w in
    if bool_decide (d ∈ unwritable fs) then (Raise (mk_exn OSError (py "Permission denied")), w)
    else
      match node_at fs d with
      | Some Directory => (Ok tt, w)
      | Some _ => (Raise (mk_exn OSError (py "File exists")), w)
      | None =>
          (Ok tt, mk_world (mk_fs (<[d := Directory]> (nodes fs)) (unwritable fs)) (w_out w))
      end.

(** [open(path, "w")] and the writes up to the closing of the file. *)
Definition write_text (path text : pystr) : M unit :=
  fun w =>
    let fs := w_fs w in
    match path with
    | [] => (Raise (mk_exn OSError (py "No such file or directory")), w)
    | _ =>
        if bool_decide (path ∈ unwritable fs)
        then (Raise (mk_exn OSError (py "Permission denied")), w)
        else
          match node_at fs path with
          | Some Directory => (Raise (mk_exn OSError (py "Is a directory")), w)
          | _ => (Ok tt, mk_world (mk_fs (<[path := FileText text]> (nodes fs)) (unwritable fs))
                           (w_out w))
          end
    end.

End World.

(* ===================================================================== *)
(** * The snapshot store: [load_last], [save_last] *)
(* ===================================================================== *)

Module Store.
Import Py Json World.

(** [json.load(f)]; the text of the decoder's message is not modelled. *)
Definition json_load (path : pystr) : M json :=
  let! txt := read_text path in
  match loads txt with
  | Some v => ret v
  | None => raise (mk_exn JSONDecodeError (py "Expecting value"))
  end.

(** [load_last(path)]. Python's [None] is [JNull]: it is what the
    function returns for "no data" and what [json.load] returns for the
    text [null]. *)
Definition load_last (path : pystr) : M json :=
  let! fs := get_fs in
  if path_exists fs path then
    try_except (json_load path) [JSONDecodeError; OSError]
      (fun e =>
         do! emit (Printed (py "Warning: Could not load last price data: " ++ exn_msg e)) in
         ret JNull)
  else ret JNull.

(** [save_last(path, data)] *)
Definition save_last (path : pystr) (data : json) : M unit :=
  try_except
    (do! makedirs (match dirname path with [] => py "." | d => d end) in
     write_text path (dumps_indent2 data))
    [OSError]
    (fun e => emit (Printed (py "Warning: Could not save price data: " ++ exn_msg e))).

End Store.

(* ===================================================================== *)
(** * The monitor: [fetch_html], [send_telegram], [run] *)
(* ===================================================================== *)

Module Monitor.
Import Py PyFloat Numeral Json World Store.
Local Open Scope Z_scope.

Definition TARGET_URL : pystr :=
  py "https://www.ncl.com/no/en/cruises/"
  ++ py "14-day-iceland-round-trip-london-reykjavik-belfast-"
  ++ py "and-paris-PRIMA14SOULEHBFSREYISAAKUGNRBGOSVGSOU"
  ++ py "?destinations=4294949354,4294949395,4294949385"
  ++ py "&sailMonths=4294949333&numberOfGuests=4294949461"
  ++ py "&sortBy=price&autoPopulate=f&from=resultpage"
  ++ py "&itineraryCode=PRIMA14SOULEHBFSREYISAAKUGNRBGOSVGSOU".

(** ** The network *)

(** What one try of a request meets: no answer (a refused connection, a
    timeout), or a response. *)
Inductive reply :=
  | NoAnswer (msg : pystr)
  | Response (status : Z) (body : pystr).

Definition status_forcelist : list Z := [429; 500; 502; 503; 504].

(** [session.get] behind [Retry(total=3, status_forcelist=...)]: a try
    without an answer, or answered with one of the listed statuses, is
    made again while retries are left; the waits between tries are not
    modelled. [tries i] is what the [i]-th try meets. *)
Fixpoint get_with_retries (retries : nat) (tries : nat -> reply) (i : nat)
  : result (Z * pystr) :=
  match tries i with
  | NoAnswer msg =>
      match retries with
      | O => Raise (mk_exn RequestException msg)
      | S r => get_with_retries r tries (S i)
      end
  | Response st body =>
      if existsb (Z.eqb st) status_forcelist then
        match retries with
        | O => Raise (mk_exn RequestException (py "too many error responses"))
        | S r => get_with_retries r tries (S i)
        end
      else Ok (st, body)
  end.

(** [r.raise_for_status()] *)
Definition raise_for_status (st : Z) : result unit :=
  if (400 <=? st) && (st <? 600) then Raise (mk_exn HTTPError (py "HTTP error status"))
  else Ok tt.

(** [fetch_html(url)] *)
Definition fetch_html (url : pystr) (tries : nat -> reply) : M pystr :=
  do! emit (HttpGet url) in
  try_except
    (let! '(st, body) := lift (get_with_retries 3 tries 0) in
     do! lift (raise_for_status st) in
     ret body)
    [RequestException]
    (fun e => raise (mk_exn Exception (py "Failed to fetch HTML: " ++ exn_msg e))).

(** [send_telegram(token, chat_id, message)] *)
Definition send_telegram (token chat_id message : pystr) (answer : reply) : M unit :=
  let url := py "https://api.telegram.org/bot" ++ token ++ py "/sendMessage" in
  do! emit (HttpPost url chat_id message) in
  match answer with
  | NoAnswer msg => raise (mk_exn RequestException msg)
  | Response st _ => lift (raise_for_status st)
  end.

(** [time.sleep(secs)] for an [int]. *)
Definition sleep (secs : Z) : M unit :=
  if secs <? 0 then raise (mk_exn ValueError (py "sleep length must be non-negative"))
  else if 9223372036 <? secs then raise (mk_exn OverflowError (py "timestamp too large"))
  else emit (Slept secs).

(** ** Change detection (line 252) *)

(** [x == v] for a float [x]. *)
Definition float_eq_json (x : pyfloat) (v : json) : bool :=
  match v with
  | JFloat y => eqb x y
  | JInt n => eqb_int x n
  | JBool b => eqb_int x (if b then 1 else 0)
  | _ => false
  end.

(** [tuple(v)] *)
Definition tuple_of (v : json) : result (list json) :=
  match v with
  | JArr l => Ok l
  | JObj d => Ok (map (fun kv => JStr (fst kv)) d)
  | JStr s => Ok (map (fun c => JStr [c]) s)
  | _ => Raise (mk_exn TypeError (py "object is not iterable"))
  end.

(** [last is None or (base, taxes) != tuple(last)] *)
Definition has_changed (base taxes : pyfloat) (last : json) : result bool :=
  match last with
  | JNull => Ok true
  | _ =>
      bind (tuple_of last)
        (fun t =>
           Ok (match t with
               | [a; b] => negb (float_eq_json base a && float_eq_json taxes b)
               | _ => true
               end))
  end.

(** ** The messages *)

Definition debug_msg (base taxes : pyfloat) : pystr :=
  py "[DEBUG] Price check " ++ [8594%N] ++ py " Base: $" ++ format_f 0 base
  ++ py ", Taxes: $" ++ format_f 2 taxes
  ++ py " (Total: $" ++ format_f 2 (add base taxes) ++ py ")".

Definition alert_msg (base taxes : pyfloat) : pystr :=
  py "Norwegian Prima price update" ++ [128674%N; 10%N; 10%N]
  ++ py "Base fare: $" ++ format_f 0 base ++ [10%N]
  ++ py "Taxes/fees: $" ++ format_f 2 taxes ++ [10%N]
  ++ py "Total: $" ++ format_f 2 (add base taxes) ++ [10%N; 10%N]
  ++ TARGET_URL.

(** ** Configuration (lines 226-232) *)

Record config := mk_config {
  bot_token : pystr;
  chat_id : pystr;
  interval : Z;
  store_f : pystr
}.

(** [os.getenv(name, default)] *)
Definition getenv (env : gmap pystr pystr) (name default : pystr) : pystr :=
  match env !! name with
  | Some v => v
  | None => default
  end.

Definition truthy (s : pystr) : bool :=
  match s with
  | [] => false
  | _ => true
  end.

Definition configure (env : gmap pystr pystr) : result config :=
  let bot_token := py "7915288038:AAGzGuF0aMgaJoYYU-EzsA2tdIxRavQkjKc" in
  let chat_id := py "-1002852664251" in
  match int_of_str (getenv env (py "CHECK_INTERVAL_MIN") (py "1")) with
  | None => Raise (mk_exn ValueError (py "invalid literal for int() with base 10"))
  | Some interval =>
      let store_f := getenv env (py "LAST_PRICE_FILE") (py "last_price.json") in
      if negb (truthy bot_token && truthy chat_id)
      then Raise (mk_exn SystemExit (py "Error: TELEGRAM_BOT_TOKEN and TELEGRAM_CHAT_ID must be set"))
      else Ok (mk_config bot_token chat_id interval store_f)
  end.

(** ** The loop (lines 239-265) *)

(** What the network does during one cycle. *)
Record net := mk_net {
  page : nat -> reply;
  telegram : reply
}.

(** Lines 250-260: the comparison with the last-seen pair, the alert
    and the new snapshot. *)
Definition compare_and_alert (cfg : config) (o : net) (base taxes : pyfloat) : M unit :=
  let! last := load_last (store_f cfg) in
  let! changed := lift (has_changed base taxes last) in
  if changed then
    do! send_telegram (bot_token cfg) (chat_id cfg) (alert_msg base taxes) (telegram o) in
    save_last (store_f cfg) (JArr [JFloat base; JFloat taxes])
  else ret tt.

Section WithParser.

Variable BeautifulSoup : pystr -> option Soup.soup.

(** The body of the [try] of one cycle (lines 241-260). *)
Definition check (cfg : config) (o : net) : M unit :=
  let! html := fetch_html TARGET_URL (page o) in
  let! '(base, taxes) := lift (Extractor.parse_price BeautifulSoup html) in
  do! emit (Logged INFO (debug_msg base taxes)) in
  compare_and_alert cfg o base taxes.

(** One turn of the loop: the guarded check, then the sleep. *)
Definition cycle (cfg : config) (o : net) : M unit :=
  do! try_except (check cfg o) [Exception]
        (fun e => emit (Logged ERROR (py "Problem during check: " ++ exn_msg e))) in
  sleep (interval cfg * 60).

(** The first cycles of [while True], one for each element of [os]:
    [Ok] when the loop is still running after them, [Raise] when the
    process has died. *)
Fixpoint loop (cfg : config) (os : list net) : M unit :=
  match os with
  | [] => ret tt
  | o :: os' => do! cycle cfg o in loop cfg os'
  end.

(** [run()] *)
Definition run (env : gmap pystr pystr) (os : list net) : M unit :=
  let! cfg := lift (configure env) in
  loop cfg os.

End WithParser.

End Monitor.

(* ===================================================================== *)
(** * Sample documents and parsers *)
(* ===================================================================== *)

Module Sample.
Import Soup.

(** A page without markup is one string of text. *)
Definition plain_text_parser (html : pystr) : option soup := Some [Text html].

Definition offer_json : pystr := pyq "{'@type': 'Offer', 'price': 1899}".

(** A structured-data block with the price as a number, and below it a
    line of text with the taxes; no disclaimer section. *)
Definition offer_page : pystr :=
  pyq "<script type='application/ld+json'>" ++ offer_json ++ py "</script>"
  ++ py "<p>+ Taxes, fees and port expenses $493.55 USD</p>".

Definition offer_tree : soup :=
  [Elem (py "script") [] [(py "type", py "application/ld+json")] [Hidden offer_json];
   Elem (py "p") [] [] [Text (py "+ Taxes, fees and port expenses $493.55 USD")]].

Definition offer_parser (html : pystr) : option soup := Some offer_tree.

(** The same with a fare of its own in the text. *)
Definition offer_page_with_fare : pystr :=
  offer_page ++ py "<p>$2,000 PP / USD</p>".

Definition fare_text : pystr :=
  py "$1,899 PP / USD + Taxes, fees and port expenses $493.55 USD".

Definition fare_text_1999 : pystr :=
  py "$1,999 PP / USD + Taxes, fees and port expenses $493.55 USD".

End Sample.

Example plain_text_extraction :
  Extractor.parse_price Sample.plain_text_parser Sample.fare_text = Py.Ok (f1899, f493_55).
Proof. vm_compute. reflexivity. Qed.

Example offer_without_disclaimer :
  Extractor.s1_run Sample.offer_parser Sample.offer_page = Extractor.S1Break f1899
  /\ Extractor.parse_price Sample.offer_parser Sample.offer_page
     = Py.Raise Extractor.no_price_block
  /\ Extractor.parse_price Sample.offer_parser Sample.offer_page_with_fare
     = Py.Ok (PyFloat.of_decimal false 2000 0, f493_55).
Proof. vm_compute. repeat split. Qed.

(* ===================================================================== *)
(** * Properties of the extractor *)
(* ===================================================================== *)

Module ExtractorFacts.
Import Py PyFloat Json Soup Extractor.

(** What it means that the loop of strategy 1 ends at line 112: some
    block is an Offer whose price converts to a float, and the disclaimer
    list shows no amount. *)
Lemma s1_break_inv sp scripts base :
  s1_loop sp scripts = S1Break base ->
  exists sc txt d v,
    In sc scripts /\ string_of sc = Some txt /\ loads txt = Some (JObj d)
    /\ is_offer_with_price d = true /\ dict_get (py "price") d = Some v
    /\ float_of_json v = Ok base /\ taxes_in_disclaimer_list sp = Ok None.
Proof.
  induction scripts as [|sc rest IH]; intros H; [discriminate|].
  cbn [s1_loop] in H.
  destruct (string_of sc) as [txt|] eqn:Hs; [|discriminate].
  destruct (loads txt) as [data|] eqn:Hl.
  2:{ destruct (IH H) as (sc' & t & d & v & Hin & R). exists sc', t, d, v. split; [now right|exact R]. }
  destruct data as [| | | | | |d]; try discriminate.
  destruct (is_offer_with_price d) eqn:Ho.
  2:{ destruct (IH H) as (sc' & t & d' & v & Hin & R). exists sc', t, d', v. split; [now right|exact R]. }
  destruct (dict_get (py "price") d) as [v|] eqn:Hp.
  - destruct (float_of_json v) as [b|e] eqn:Hf; cbn [bind] in H.
    + destruct (taxes_in_disclaimer_list sp) as [[t|]|e] eqn:Ht; cbn [bind] in H.
      * discriminate.
      * injection H as <-. exists sc, txt, d, v. repeat split; auto. now left.
      * destruct (caught_by _ e); [|discriminate].
        destruct (IH H) as (sc' & t & d' & v' & Hin & R). exists sc', t, d', v'.
        split; [now right|exact R].
    + destruct (caught_by _ e); [|discriminate].
      destruct (IH H) as (sc' & t & d' & v' & Hin & R). exists sc', t, d', v'.
      split; [now right|exact R].
  - cbn [bind] in H. destruct (caught_by _ _); [|discriminate].
    destruct (IH H) as (sc' & t & d' & v' & Hin & R). exists sc', t, d', v'.
    split; [now right|exact R].
Qed.

End ExtractorFacts.

(** C1 - When the loop of strategy 1 ends with a base price and no taxes
    (line 112: an Offer block whose price converts to a float, no amount in
    the disclaimer list), strategy 1 yields nothing and [parse_price] is
    what strategies 2 and 3 make of the document by themselves. Neither of
    them is given the base price found, so nothing partial is returned:
    if strategy 2 fails and the base-fare patterns of strategy 3 find
    nothing, [parse_price] raises, whatever taxes strategy 3 may find. *)
Theorem partial_base_fare_not_retained :
  forall (BeautifulSoup : pystr -> option Soup.soup) (html : pystr) (base : PyFloat.pyfloat),
    Extractor.s1_run BeautifulSoup html = Extractor.S1Break base ->
    Extractor.strategy1 BeautifulSoup html = None
    /\ Extractor.parse_price BeautifulSoup html
       = match Extractor.strategy2 BeautifulSoup html with
         | Some r => Py.Ok r
         | None =>
             match Extractor.strategy3 html with
             | Some r => Py.Ok r
             | None => Py.Raise Extractor.no_price_block
             end
         end
    /\ (Extractor.strategy2 BeautifulSoup html = None ->
        Extractor.first_match Extractor.fare_patterns (Re.collapse_spaces html) = Py.Ok None ->
        Extractor.parse_price BeautifulSoup html = Py.Raise Extractor.no_price_block).
Proof.
  intros BS html base H.
  assert (H1 : Extractor.strategy1 BS html = None).
  { unfold Extractor.strategy1. now rewrite H. }
  split; [exact H1|]. split.
  - unfold Extractor.parse_price. now rewrite H1.
  - intros H2 H3. unfold Extractor.parse_price. rewrite H1, H2.
    unfold Extractor.strategy3. rewrite H3. cbn [Py.bind].
    destruct (Extractor.first_match Extractor.tax_patterns (Re.collapse_spaces html))
      as [[t|]|e]; reflexivity.
Qed.

Lemma partial_base_fare_not_retained_witness :
  Extractor.strategy1 Sample.offer_parser Sample.offer_page = None
  /\ Extractor.parse_price Sample.offer_parser Sample.offer_page
     = Py.Raise Extractor.no_price_block.
Proof.
  destruct (partial_base_fare_not_retained Sample.offer_parser Sample.offer_page f1899)
    as (H1 & _ & H3).
  - vm_compute. reflexivity.
  - split; [exact H1|]. apply H3; vm_compute; reflexivity.
Defined.


(* ===================================================================== *)
(** * Properties of the snapshot store *)
(* ===================================================================== *)

Module StoreFacts.
Import Py Json World Store.

Definition load_warning (e : exn) : event :=
  Printed (py "Warning: Could not load last price data: " ++ exn_msg e).

Definition with_event (w : world) (e : event) : world :=
  mk_world (w_fs w) (w_out w ++ [e]).

Lemma load_missing path w :
  node_at (w_fs w) path = None -> load_last path w = (Ok JNull, w).
Proof.
  intros H. unfold load_last, bindM, get_fs, path_exists. now rewrite H.
Qed.

Lemma load_parsed path w txt v :
  node_at (w_fs w) path = Some (FileText txt) -> loads txt = Some v ->
  load_last path w = (Ok v, w).
Proof.
  intros H Hl.
  unfold load_last, bindM, get_fs, path_exists, try_except, json_load, bindM, read_text.
  rewrite H. cbv beta iota. rewrite H, Hl. reflexivity.
Qed.

Lemma load_unparsable path w txt :
  node_at (w_fs w) path = Some (FileText txt) -> loads txt = None ->
  load_last path w
  = (Ok JNull, with_event w (load_warning (mk_exn JSONDecodeError (py "Expecting value")))).
Proof.
  intros H Hl.
  unfold load_last, bindM, get_fs, path_exists, try_except, json_load, bindM, read_text.
  rewrite H. cbv beta iota. rewrite H, Hl. reflexivity.
Qed.

Lemma load_os_error path w n :
  node_at (w_fs w) path = Some n -> n = FileUnreadable \/ n = Directory ->
  exists e, exn_cls e = OSError
            /\ load_last path w = (Ok JNull, with_event w (load_warning e)).
Proof.
  intros H [-> | ->];
    unfold load_last, bindM, get_fs, path_exists, try_except, json_load, bindM, read_text;
    rewrite H; cbv beta iota; rewrite H; eexists; (split; [|reflexivity]); reflexivity.
Qed.

Lemma load_undecodable path w :
  node_at (w_fs w) path = Some FileUndecodable ->
  exists e, exn_cls e = UnicodeDecodeError /\ load_last path w = (Raise e, w).
Proof.
  intros H.
  unfold load_last, bindM, get_fs, path_exists, try_except, json_load, bindM, read_text.
  rewrite H. cbv beta iota. rewrite H. eexists; (split; [|reflexivity]); reflexivity.
Qed.

Lemma with_event_neq w e : with_event w e <> w.
Proof.
  intros H. apply (f_equal w_out) in H. unfold with_event in H. cbn [w_out] in H.
  apply (f_equal (@length event)) in H. rewrite length_app in H. cbn in H. lia.
Qed.

(** A load that printed nothing depends on the file system only. *)
Lemma load_frame path w last w2 :
  load_last path w = (Ok last, w) -> w_fs w2 = w_fs w ->
  load_last path w2 = (Ok last, w2).
Proof.
  intros Hl Hfs.
  destruct (node_at (w_fs w) path) as [n|] eqn:Hn.
  - destruct n as [txt| | |].
    + destruct (loads txt) as [v|] eqn:Hv.
      * rewrite (load_parsed path w txt v Hn Hv) in Hl. injection Hl as <-.
        apply (load_parsed path w2 txt v); [now rewrite Hfs|exact Hv].
      * rewrite (load_unparsable path w txt Hn Hv) in Hl. injection Hl as _ Hw.
        now apply with_event_neq in Hw.
    + destruct (load_undecodable path w Hn) as (e & _ & He). rewrite He in Hl. discriminate.
    + destruct (load_os_error path w _ Hn (or_introl eq_refl)) as (e & _ & He).
      rewrite He in Hl. injection Hl as _ Hw. now apply with_event_neq in Hw.
    + destruct (load_os_error path w _ Hn (or_intror eq_refl)) as (e & _ & He).
      rewrite He in Hl. injection Hl as _ Hw. now apply with_event_neq in Hw.
  - rewrite (load_missing path w Hn) in Hl. injection Hl as <-.
    apply load_missing. now rewrite Hfs.
Qed.

End StoreFacts.



Definition fs_with_file (path content : pystr) : World.filesystem :=
  World.mk_fs {[ path := World.FileText content ]} ∅.

Definition store_path : pystr := py "last_price.json".


(* ===================================================================== *)
(** * Properties of the monitor *)
(* ===================================================================== *)

Module MonitorFacts.
Import Py PyFloat Json World Store Monitor StoreFacts.
Local Open Scope Z_scope.




Lemma fetch_ok url tries w st body :
  get_with_retries 3 tries 0 = Ok (st, body) -> raise_for_status st = Ok tt ->
  fetch_html url tries w = (Ok body, with_event w (HttpGet url)).
Proof.
  intros H Hs. unfold fetch_html, bindM, emit, try_except, lift, ret.
  cbv beta iota. rewrite H. cbv beta iota. rewrite Hs. reflexivity.
Qed.


Section WithParser.

Variable BeautifulSoup : pystr -> option Soup.soup.

Definition guarded_check (cfg : config) (o : net) : M unit :=
  try_except (check BeautifulSoup cfg o) [Exception]
    (fun e => emit (Logged ERROR (py "Problem during check: " ++ exn_msg e))).




End WithParser.

End MonitorFacts.


Definition default_config : Monitor.config :=
  Monitor.mk_config (py "7915288038:AAGzGuF0aMgaJoYYU-EzsA2tdIxRavQkjKc")
    (py "-1002852664251") 1 store_path.



(* ===================================================================== *)
(** * Float equality is equality of values *)
(* ===================================================================== *)

Module PyFloatFacts.
Import PyFloat.
Local Open Scope Z_scope.






End PyFloatFacts.

(* ===================================================================== *)
(** * The cycle after a successful extraction *)
(* ===================================================================== *)

Module CycleFacts.
Import Py PyFloat Json World Store Monitor StoreFacts MonitorFacts.



Lemma compare_changed cfg o base taxes w w' last :
  load_last (store_f cfg) w = (Ok last, w') ->
  has_changed base taxes last = Ok true ->
  compare_and_alert cfg o base taxes w
  = bindM (send_telegram (bot_token cfg) (chat_id cfg) (alert_msg base taxes) (telegram o))
      (fun _ => save_last (store_f cfg) (JArr [JFloat base; JFloat taxes])) w'.
Proof.
  intros Hl Hc. unfold compare_and_alert. unfold bindM at 1. rewrite Hl.
  unfold bindM at 1. unfold lift. now rewrite Hc.
Qed.

Section WithParser.

Variable BeautifulSoup : pystr -> option Soup.soup.

(** The page was fetched and both figures were extracted from it. *)
Definition extracted (o : net) (base taxes : pyfloat) : Prop :=
  exists st body,
    get_with_retries 3 (page o) 0 = Ok (st, body)
    /\ raise_for_status st = Ok tt
    /\ Extractor.parse_price BeautifulSoup body = Ok (base, taxes).

Definition after_extraction (w : world) (base taxes : pyfloat) : world :=
  mk_world (w_fs w)
    (w_out w ++ [HttpGet TARGET_URL; Logged INFO (debug_msg base taxes)]).

Lemma check_extracted cfg o w base taxes :
  extracted o base taxes ->
  check BeautifulSoup cfg o w
  = compare_and_alert cfg o base taxes (after_extraction w base taxes).
Proof.
  intros (st & body & Hg & Hs & Hp). unfold check.
  unfold bindM at 1. rewrite (fetch_ok TARGET_URL (page o) w st body Hg Hs).
  unfold bindM at 1. unfold lift at 1. rewrite Hp.
  unfold bindM at 1. unfold emit, with_event, after_extraction.
  cbn [w_fs w_out]. rewrite <- app_assoc. reflexivity.
Qed.

End WithParser.


End CycleFacts.


Definition world_with_snapshot (text : pystr) : World.world :=
  World.mk_world (fs_with_file store_path text) [].

Definition net_ok (page_text : pystr) : Monitor.net :=
  Monitor.mk_net (fun _ => Monitor.Response 200 page_text) (Monitor.Response 200 []).


(* ===================================================================== *)
(** * Saving the snapshot *)
(* ===================================================================== *)

Module SaveFacts.
Import Py Json World Store.

Definition save_dir (path : pystr) : pystr :=
  match dirname path with
  | [] => py "."
  | d => d
  end.

(** The file system lets [save_last] through: the directory can be made
    or is there, and the path can be opened for writing. *)
Definition accepts_write (fs : filesystem) (path : pystr) : bool :=
  let d := save_dir path in
  negb (bool_decide (d ∈ unwritable fs))
  && match node_at fs d with Some Directory | None => true | Some _ => false end
  && negb (str_eqb d path)
  && match path with [] => false | _ => true end
  && negb (bool_decide (path ∈ unwritable fs))
  && match node_at fs path with Some Directory => false | _ => true end.

Lemma node_at_insert_eq fs path n u :
  str_eqb path (py ".") = false ->
  node_at (mk_fs (<[path := n]> (nodes fs)) u) path = Some n.
Proof.
  intros H. unfold node_at. rewrite H. cbn [nodes]. apply lookup_insert_eq.
Qed.

Lemma node_at_insert_ne fs d path n u :
  d <> path ->
  node_at (mk_fs (<[d := n]> (nodes fs)) u) path = node_at fs path.
Proof.
  intros H. unfold node_at. cbn [nodes].
  destruct (str_eqb path (py ".")); [reflexivity|]. now apply lookup_insert_ne.
Qed.

(** An accepted save writes the text of [json.dump] and prints nothing. *)
Lemma save_accepted path data w :
  accepts_write (w_fs w) path = true ->
  exists fs',
    save_last path data w = (Ok tt, mk_world fs' (w_out w))
    /\ node_at fs' path = Some (FileText (dumps_indent2 data)).
Proof.
  unfold accepts_write. fold (save_dir path).
  rewrite !andb_true_iff, !negb_true_iff.
  intros (((((Hd & Hn) & Hne) & Hp) & Hu) & Hf).
  assert (Hdp : save_dir path <> path).
  { intros E. rewrite E, str_eqb_refl in Hne. discriminate. }
  assert (Hdot : str_eqb path (py ".") = false).
  { destruct (str_eqb path (py ".")) eqn:E; [|reflexivity].
    unfold node_at in Hf. rewrite E in Hf. discriminate. }
  unfold save_last, try_except. unfold bindM. fold (save_dir path).
  unfold makedirs. rewrite Hd.
  destruct (node_at (w_fs w) (save_dir path)) as [[| | |]|] eqn:Hnd; try discriminate.
  - unfold write_text. destruct path as [|c path']; [discriminate|].
    rewrite Hu.
    destruct (node_at (w_fs w) (c :: path')) as [[| | |]|] eqn:Hnp; try discriminate;
      (eexists; split; [reflexivity|]); now apply node_at_insert_eq.
  - unfold write_text. destruct path as [|c path']; [discriminate|].
    cbn [w_fs unwritable]. rewrite Hu.
    rewrite (node_at_insert_ne _ _ _ _ _ Hdp).
    destruct (node_at (w_fs w) (c :: path')) as [[| | |]|] eqn:Hnp; try discriminate;
      (eexists; split; [reflexivity|]); now apply node_at_insert_eq.
Qed.

End SaveFacts.

Example dirname_samples :
  World.dirname (py "last_price.json") = []
  /\ World.dirname (py "data/prices/last.json") = py "data/prices"
  /\ World.dirname (py "/last.json") = py "/"
  /\ World.dirname (py "data//last.json") = py "data"
  /\ SaveFacts.save_dir (py "last_price.json") = py ".".
Proof. vm_compute. repeat split. Qed.

(* ===================================================================== *)
(** * The alert and the new snapshot *)
(* ===================================================================== *)

Module AlertFacts.
Import Py PyFloat Json World Store Monitor StoreFacts MonitorFacts CycleFacts SaveFacts.

Definition telegram_url (cfg : config) : pystr :=
  py "https://api.telegram.org/bot" ++ bot_token cfg ++ py "/sendMessage".

Definition alert_event (cfg : config) (base taxes : pyfloat) : event :=
  HttpPost (telegram_url cfg) (chat_id cfg) (alert_msg base taxes).

(** The messaging service took the message. *)
Definition accepted (r : reply) : bool :=
  match r with
  | Response st _ => match raise_for_status st with Ok _ => true | Raise _ => false end
  | NoAnswer _ => false
  end.

Lemma send_accepted cfg o base taxes w :
  accepted (telegram o) = true ->
  send_telegram (bot_token cfg) (chat_id cfg) (alert_msg base taxes) (telegram o) w
  = (Ok tt, with_event w (alert_event cfg base taxes)).
Proof.
  unfold accepted, send_telegram, bindM, emit, lift. intros H.
  destruct (telegram o) as [msg|st body]; [discriminate|].
  destruct (raise_for_status st) as [[]|e]; [reflexivity|discriminate].
Qed.

Lemma send_refused cfg o base taxes w :
  accepted (telegram o) = false ->
  exists e, exn_cls e <> SystemExit
            /\ send_telegram (bot_token cfg) (chat_id cfg) (alert_msg base taxes) (telegram o) w
               = (Raise e, with_event w (alert_event cfg base taxes)).
Proof.
  unfold accepted, send_telegram, bindM, emit, lift. intros H.
  destruct (telegram o) as [msg|st body].
  - eexists; (split; [|reflexivity]); discriminate.
  - unfold raise_for_status in *.
    destruct ((400 <=? st)%Z && (st <? 600)%Z); [|discriminate].
    eexists; (split; [|reflexivity]); discriminate.
Qed.

(** [save_last] never raises: what it cannot write it reports. *)
Lemma save_total path data w :
  exists fs' rest, save_last path data w = (Ok tt, mk_world fs' (w_out w ++ rest)).
Proof.
  unfold save_last, try_except, bindM, makedirs, write_text, emit.
  destruct (bool_decide _).
  { cbn. eexists _, [_]. reflexivity. }
  destruct (node_at (w_fs w) _) as [[| | |]|]; cbn;
    try (eexists _, [_]; reflexivity);
    destruct path as [|c path']; cbn;
    try (eexists _, [_]; reflexivity);
    destruct (bool_decide _); cbn;
    try (eexists _, [_]; reflexivity);
    destruct (node_at _ (c :: path')) as [[| | |]|]; cbn;
    try (eexists _, [_]; reflexivity);
    eexists _, []; rewrite app_nil_r; reflexivity.
Qed.

Lemma every_class_is_exception_or_exit e :
  exn_cls e <> SystemExit -> caught_by [Exception] e = true.
Proof.
  unfold caught_by. destruct e as [c m]. cbn [exn_cls existsb].
  destruct c; intros H; try reflexivity. now destruct H.
Qed.

Section WithParser.

Variable BeautifulSoup : pystr -> option Soup.soup.

(** A changed pair is always posted, whatever becomes of the request. *)
Lemma changed_pair_is_posted cfg o w base taxes last :
  extracted BeautifulSoup o base taxes ->
  load_last (store_f cfg) w = (Ok last, w) ->
  has_changed base taxes last = Ok true ->
  exists fs' rest,
    guarded_check BeautifulSoup cfg o w
    = (Ok tt,
       mk_world fs'
         (w_out w ++ [HttpGet TARGET_URL; Logged INFO (debug_msg base taxes);
                      alert_event cfg base taxes] ++ rest)).
Proof.
  intros Hx Hl Hc. unfold guarded_check, try_except.
  rewrite (check_extracted BeautifulSoup cfg o w base taxes Hx).
  assert (Hl' : load_last (store_f cfg) (after_extraction w base taxes)
                = (Ok last, after_extraction w base taxes)).
  { apply (load_frame _ w last _ Hl). reflexivity. }
  rewrite (compare_changed cfg o base taxes _ _ last Hl' Hc).
  unfold bindM.
  destruct (accepted (telegram o)) eqn:Ha.
  - rewrite (send_accepted cfg o base taxes _ Ha).
    destruct (save_total (store_f cfg) (JArr [JFloat base; JFloat taxes])
                (with_event (after_extraction w base taxes) (alert_event cfg base taxes)))
      as (fs' & rest & Hs).
    rewrite Hs. exists fs', rest. f_equal. f_equal.
    unfold with_event, after_extraction. cbn [w_out].
    rewrite <- !app_assoc. reflexivity.
  - destruct (send_refused cfg o base taxes (after_extraction w base taxes) Ha)
      as (e & He & Hs).
    rewrite Hs, (every_class_is_exception_or_exit e He).
    unfold emit, with_event, after_extraction. cbn [w_fs w_out].
    eexists _, [_]. f_equal. f_equal. rewrite <- !app_assoc. reflexivity.
Qed.

(** When the service takes the message and the file system the write, the
    store holds the new pair afterwards. *)
Lemma changed_pair_is_saved cfg o w base taxes last :
  extracted BeautifulSoup o base taxes ->
  load_last (store_f cfg) w = (Ok last, w) ->
  has_changed base taxes last = Ok true ->
  accepted (telegram o) = true ->
  accepts_write (w_fs w) (store_f cfg) = true ->
  exists fs',
    guarded_check BeautifulSoup cfg o w
    = (Ok tt,
       mk_world fs'
         (w_out w ++ [HttpGet TARGET_URL; Logged INFO (debug_msg base taxes);
                      alert_event cfg base taxes]))
    /\ node_at fs' (store_f cfg)
       = Some (FileText (dumps_indent2 (JArr [JFloat base; JFloat taxes]))).
Proof.
  intros Hx Hl Hc Ha Hw. unfold guarded_check, try_except.
  rewrite (check_extracted BeautifulSoup cfg o w base taxes Hx).
  assert (Hl' : load_last (store_f cfg) (after_extraction w base taxes)
                = (Ok last, after_extraction w base taxes)).
  { apply (load_frame _ w last _ Hl). reflexivity. }
  rewrite (compare_changed cfg o base taxes _ _ last Hl' Hc).
  unfold bindM. rewrite (send_accepted cfg o base taxes _ Ha).
  destruct (save_accepted (store_f cfg) (JArr [JFloat base; JFloat taxes])
              (with_event (after_extraction w base taxes) (alert_event cfg base taxes)) Hw)
    as (fs' & Hs & Hn).
  rewrite Hs. exists fs'. split; [|exact Hn].
  f_equal. f_equal. unfold with_event, after_extraction. cbn [w_out].
  rewrite <- !app_assoc. reflexivity.
Qed.

End WithParser.

End AlertFacts.

Definition snapshot_1899 : Json.json := Json.JArr [Json.JFloat f1899; Json.JFloat f493_55].
Definition snapshot_1999 : Json.json := Json.JArr [Json.JFloat f1999; Json.JFloat f493_55].

(** The stored snapshot is [[1899.0, 493.55]], the page now shows
    [$1,999 PP / USD], the messaging service answers 200. *)
Definition price_rise_run : Py.result unit * World.world :=
  MonitorFacts.guarded_check Sample.plain_text_parser default_config
    (net_ok Sample.fare_text_1999) (world_with_snapshot (py "[1899.0, 493.55]")).

(** C3, as stated, fails on the text of the message: the total is written
    with a comma between the thousands, so the message that the cycle
    posts for the stored [[1899.0, 493.55]] and the extracted
    [(1999.0, 493.55)] does not contain [$2492.55]. *)
Lemma alert_total_has_thousands_separator :
  World.w_out (snd price_rise_run)
  = [World.HttpGet Monitor.TARGET_URL;
     World.Logged World.INFO (Monitor.debug_msg f1999 f493_55);
     AlertFacts.alert_event default_config f1999 f493_55]
  /\ contains (py "$2492.55") (Monitor.alert_msg f1999 f493_55) = false.
Proof. vm_compute. split; reflexivity. Qed.

(** C3, amended - With the stored snapshot [[1899.0, 493.55]] and the
    extracted pair [(1999.0, 493.55)] the comparison answers true and the
    cycle posts a message whose text contains the new total as
    [$2,492.55], the thousands separated by a comma; and when the
    messaging service takes the message and the file system the write, the
    store holds [[1999.0, 493.55]] afterwards, which [load_last] reads
    back as that pair. *)
Theorem price_change_alerts_and_updates :
  forall (BeautifulSoup : pystr -> option Soup.soup) (cfg : Monitor.config)
         (o : Monitor.net) (w : World.world) (txt : pystr),
    CycleFacts.extracted BeautifulSoup o f1999 f493_55 ->
    World.node_at (World.w_fs w) (Monitor.store_f cfg) = Some (World.FileText txt) ->
    Json.loads txt = Some snapshot_1899 ->
    Monitor.has_changed f1999 f493_55 snapshot_1899 = Py.Ok true
    /\ contains (py "Total: $2,492.55") (Monitor.alert_msg f1999 f493_55) = true
    /\ (exists fs' rest,
          MonitorFacts.guarded_check BeautifulSoup cfg o w
          = (Py.Ok tt,
             World.mk_world fs'
               (World.w_out w
                ++ [World.HttpGet Monitor.TARGET_URL;
                    World.Logged World.INFO (Monitor.debug_msg f1999 f493_55);
                    AlertFacts.alert_event cfg f1999 f493_55] ++ rest)))
    /\ (AlertFacts.accepted (Monitor.telegram o) = true ->
        SaveFacts.accepts_write (World.w_fs w) (Monitor.store_f cfg) = true ->
        exists fs',
          MonitorFacts.guarded_check BeautifulSoup cfg o w
          = (Py.Ok tt,
             World.mk_world fs'
               (World.w_out w
                ++ [World.HttpGet Monitor.TARGET_URL;
                    World.Logged World.INFO (Monitor.debug_msg f1999 f493_55);
                    AlertFacts.alert_event cfg f1999 f493_55]))
          /\ World.node_at fs' (Monitor.store_f cfg)
             = Some (World.FileText (Json.dumps_indent2 snapshot_1999))
          /\ Store.load_last (Monitor.store_f cfg) (World.mk_world fs' [])
             = (Py.Ok snapshot_1999, World.mk_world fs' [])).
Proof.
  intros BS cfg o w txt Hx Hn Hl.
  assert (Hc : Monitor.has_changed f1999 f493_55 snapshot_1899 = Py.Ok true)
    by (vm_compute; reflexivity).
  pose proof (StoreFacts.load_parsed _ w txt _ Hn Hl) as Hload.
  split; [exact Hc|]. split; [vm_compute; reflexivity|]. split.
  - apply (AlertFacts.changed_pair_is_posted BS cfg o w f1999 f493_55 snapshot_1899 Hx Hload Hc).
  - intros Ha Hw.
    destruct (AlertFacts.changed_pair_is_saved BS cfg o w f1999 f493_55 snapshot_1899
                Hx Hload Hc Ha Hw) as (fs' & Hg & Hf).
    exists fs'. split; [exact Hg|]. split; [exact Hf|].
    apply (StoreFacts.load_parsed _ (World.mk_world fs' []) _ _ Hf).
    vm_compute. reflexivity.
Qed.

Lemma price_change_alerts_and_updates_witness :
  Monitor.has_changed f1999 f493_55 snapshot_1899 = Py.Ok true
  /\ exists fs',
       price_rise_run
       = (Py.Ok tt,
          World.mk_world fs'
            ([] ++ [World.HttpGet Monitor.TARGET_URL;
                    World.Logged World.INFO (Monitor.debug_msg f1999 f493_55);
                    AlertFacts.alert_event default_config f1999 f493_55]))
       /\ World.node_at fs' store_path
          = Some (World.FileText (Json.dumps_indent2 snapshot_1999)).
Proof.
  destruct (price_change_alerts_and_updates Sample.plain_text_parser default_config
              (net_ok Sample.fare_text_1999) (world_with_snapshot (py "[1899.0, 493.55]"))
              (py "[1899.0, 493.55]")) as (H1 & _ & _ & H4).
  - exists 200%Z, Sample.fare_text_1999. vm_compute. repeat split.
  - vm_compute. reflexivity.
  - vm_compute. reflexivity.
  - split; [exact H1|].
    destruct H4 as (fs' & Hg & Hf & _); [vm_compute; reflexivity..|].
    exists fs'. split; [exact Hg | exact Hf].
Defined.

(* ===================================================================== *)
(** * Snapshots that are no pair *)
(* ===================================================================== *)

Module OddSnapshots.
Import Py PyFloat Json World Store Monitor StoreFacts MonitorFacts CycleFacts.






Section WithParser.

Variable BeautifulSoup : pystr -> option Soup.soup.


End WithParser.

End OddSnapshots.





(* ===================================================================== *)
(** * Configuration *)
(* ===================================================================== *)

(** C4 - With neither [TELEGRAM_BOT_TOKEN] nor [TELEGRAM_CHAT_ID] in the
    environment, [run] does not exit: it configures itself with the token
    and the chat id written in line 227 and 228 and enters the loop. For
    every environment the credentials are those two constants, and the
    only way the configuration can fail is the [ValueError] of a check
    interval that is no integer. *)
Theorem credentials_ignore_environment :
  Monitor.configure ∅ = Py.Ok default_config
  /\ (forall BeautifulSoup os w,
        Monitor.run BeautifulSoup ∅ os w = Monitor.loop BeautifulSoup default_config os w)
  /\ (forall env cfg,
        Monitor.configure env = Py.Ok cfg ->
        Monitor.bot_token cfg = Monitor.bot_token default_config
        /\ Monitor.chat_id cfg = Monitor.chat_id default_config)
  /\ (forall env e, Monitor.configure env = Py.Raise e -> Py.exn_cls e = Py.ValueError).
Proof.
  split; [vm_compute; reflexivity|]. split; [|split].
  - intros BS os w. unfold Monitor.run, World.bindM, World.lift.
    replace (Monitor.configure ∅) with (Py.Ok default_config) by (vm_compute; reflexivity).
    reflexivity.
  - intros env cfg. unfold Monitor.configure.
    destruct (Numeral.int_of_str _); [|discriminate].
    cbn [Monitor.truthy py negb andb]. intros [= <-]. split; reflexivity.
  - intros env e. unfold Monitor.configure.
    destruct (Numeral.int_of_str _).
    + cbn [Monitor.truthy py negb andb]. discriminate.
    + intros [= <-]. reflexivity.
Qed.

Lemma credentials_ignore_environment_witness :
  Monitor.bot_token default_config = Monitor.bot_token default_config
  /\ Monitor.chat_id default_config = Monitor.chat_id default_config.
Proof.
  destruct credentials_ignore_environment as (H1 & _ & H3 & _).
  apply (H3 ∅ default_config H1).
Defined.

(* ===================================================================== *)
(** * What a computation may raise and what it may change *)
(* ===================================================================== *)

Module Effects.
Import Py PyFloat Json World Store Monitor StoreFacts MonitorFacts CycleFacts SaveFacts
  AlertFacts.


(** [m] leaves the file system as it finds it. *)
Definition keeps_fs {A} (m : M A) : Prop :=
  forall w r w', m w = (r, w') -> w_fs w' = w_fs w.

(** [m] only adds to the output. *)
Definition appends {A} (m : M A) : Prop :=
  forall w r w', m w = (r, w') -> exists evs, w_out w' = w_out w ++ evs.






Lemma keeps_fs_bind {A B} (m : M A) (k : A -> M B) :
  keeps_fs m -> (forall a, keeps_fs (k a)) -> keeps_fs (bindM m k).
Proof.
  intros Hm Hk w r w' H. unfold bindM in H.
  destruct (m w) as [[a|e1] w1] eqn:E.
  - rewrite (Hk a w1 r w' H). apply (Hm w _ w1 E).
  - injection H as <- <-. apply (Hm w _ w1 E).
Qed.

Lemma keeps_fs_ret {A} (a : A) : keeps_fs (ret a).
Proof. intros w r w' H. now injection H as _ <-. Qed.

Lemma keeps_fs_emit ev : keeps_fs (emit ev).
Proof. intros w r w' H. now injection H as _ <-. Qed.

Lemma keeps_fs_lift {A} (r : result A) : keeps_fs (lift r).
Proof. intros w r' w' H. now injection H as _ <-. Qed.

Lemma keeps_fs_raise {A} e : keeps_fs (@raise A e).
Proof. intros w r' w' H. now injection H as _ <-. Qed.

Lemma keeps_fs_try {A} (body : M A) classes handler :
  keeps_fs body -> (forall e, keeps_fs (handler e)) -> keeps_fs (try_except body classes handler).
Proof.
  intros Hb Hh w r w' H. unfold try_except in H.
  destruct (body w) as [[a|e1] w1] eqn:E.
  - injection H as <- <-. apply (Hb w _ w1 E).
  - destruct (caught_by classes e1).
    + rewrite (Hh e1 w1 r w' H). apply (Hb w _ w1 E).
    + injection H as <- <-. apply (Hb w _ w1 E).
Qed.

Lemma appends_bind {A B} (m : M A) (k : A -> M B) :
  appends m -> (forall a, appends (k a)) -> appends (bindM m k).
Proof.
  intros Hm Hk w r w' H. unfold bindM in H.
  destruct (m w) as [[a|e1] w1] eqn:E.
  - destruct (Hm w _ w1 E) as (ev1 & H1). destruct (Hk a w1 r w' H) as (ev2 & H2).
    exists (ev1 ++ ev2). now rewrite H2, H1, app_assoc.
  - injection H as <- <-. apply (Hm w _ w1 E).
Qed.

Lemma appends_ret {A} (a : A) : appends (ret a).
Proof. intros w r w' H. injection H as _ <-. exists []. now rewrite app_nil_r. Qed.

Lemma appends_emit ev : appends (emit ev).
Proof. intros w r w' H. injection H as _ <-. now exists [ev]. Qed.

Lemma appends_lift {A} (r : result A) : appends (lift r).
Proof. intros w r' w' H. injection H as _ <-. exists []. now rewrite app_nil_r. Qed.

Lemma appends_raise {A} e : appends (@raise A e).
Proof. intros w r' w' H. injection H as _ <-. exists []. now rewrite app_nil_r. Qed.

Lemma appends_try {A} (body : M A) classes handler :
  appends body -> (forall e, appends (handler e)) -> appends (try_except body classes handler).
Proof.
  intros Hb Hh w r w' H. unfold try_except in H.
  destruct (body w) as [[a|e1] w1] eqn:E.
  - injection H as <- <-. apply (Hb w _ w1 E).
  - destruct (caught_by classes e1).
    + destruct (Hb w _ w1 E) as (ev1 & H1). destruct (Hh e1 w1 r w' H) as (ev2 & H2).
      exists (ev1 ++ ev2). now rewrite H2, H1, app_assoc.
    + injection H as <- <-. apply (Hb w _ w1 E).
Qed.

(** ** The parts of a cycle *)

Lemma read_text_pure path : keeps_fs (read_text path) /\ appends (read_text path).
Proof.
  split; intros w r w' H; unfold read_text in H;
    destruct (node_at (w_fs w) path) as [[| | |]|]; injection H as _ <-;
    try reflexivity; exists []; now rewrite app_nil_r.
Qed.

Lemma json_load_pure path : keeps_fs (json_load path) /\ appends (json_load path).
Proof.
  unfold json_load. split.
  - apply keeps_fs_bind; [apply read_text_pure|].
    intros txt. destruct (loads txt); [apply keeps_fs_ret|apply keeps_fs_raise].
  - apply appends_bind; [apply read_text_pure|].
    intros txt. destruct (loads txt); [apply appends_ret|apply appends_raise].
Qed.

Lemma load_last_pure path : keeps_fs (load_last path) /\ appends (load_last path).
Proof.
  unfold load_last. split.
  - apply keeps_fs_bind.
    + intros w r w' H. now injection H as _ <-.
    + intros fs. destruct (path_exists fs path); [|apply keeps_fs_ret].
      apply keeps_fs_try; [apply json_load_pure|].
      intros e. apply keeps_fs_bind; [apply keeps_fs_emit|]. intros _. apply keeps_fs_ret.
  - apply appends_bind.
    + intros w r w' H. injection H as _ <-. exists []. now rewrite app_nil_r.
    + intros fs. destruct (path_exists fs path); [|apply appends_ret].
      apply appends_try; [apply json_load_pure|].
      intros e. apply appends_bind; [apply appends_emit|]. intros _. apply appends_ret.
Qed.




Lemma fetch_html_keeps_fs url tries : keeps_fs (fetch_html url tries).
Proof.
  unfold fetch_html. apply keeps_fs_bind; [apply keeps_fs_emit|]. intros _.
  apply keeps_fs_try.
  - apply keeps_fs_bind; [apply keeps_fs_lift|]. intros [st body].
    apply keeps_fs_bind; [apply keeps_fs_lift|]. intros _. apply keeps_fs_ret.
  - intros e. apply keeps_fs_raise.
Qed.


Lemma send_telegram_keeps_fs token chat msg answer :
  keeps_fs (send_telegram token chat msg answer).
Proof.
  unfold send_telegram. apply keeps_fs_bind; [apply keeps_fs_emit|]. intros _.
  destruct answer as [m|st body]; [apply keeps_fs_raise|apply keeps_fs_lift].
Qed.




Section WithParser.

Variable BeautifulSoup : pystr -> option Soup.soup.




End WithParser.

End Effects.

(* ===================================================================== *)
(** * The loop as a whole *)
(* ===================================================================== *)

Module LoopFacts.
Import Py PyFloat Json World Store Monitor StoreFacts MonitorFacts CycleFacts SaveFacts
  AlertFacts Effects.
Local Open Scope Z_scope.


Lemma compare_refused_keeps_fs cfg o base taxes :
  accepted (telegram o) = false -> keeps_fs (compare_and_alert cfg o base taxes).
Proof.
  intros Ha. unfold compare_and_alert.
  apply keeps_fs_bind; [apply load_last_pure|]. intros last.
  apply keeps_fs_bind; [apply keeps_fs_lift|]. intros [|]; [|apply keeps_fs_ret].
  intros w r w' H. unfold bindM in H.
  destruct (send_refused cfg o base taxes w Ha) as (e & _ & Hs).
  rewrite Hs in H. now injection H as _ <-.
Qed.

Section WithParser.

Variable BeautifulSoup : pystr -> option Soup.soup.

Lemma guarded_check_refused_keeps_fs cfg o :
  accepted (telegram o) = false -> keeps_fs (guarded_check BeautifulSoup cfg o).
Proof.
  intros Ha. unfold guarded_check. apply keeps_fs_try.
  - unfold check. apply keeps_fs_bind; [apply fetch_html_keeps_fs|]. intros html.
    apply keeps_fs_bind; [apply keeps_fs_lift|]. intros [base taxes].
    apply keeps_fs_bind; [apply keeps_fs_emit|]. intros _.
    now apply compare_refused_keeps_fs.
  - intros e. apply keeps_fs_emit.
Qed.


End WithParser.

End LoopFacts.






(** X3 - The snapshot is written only behind an accepted alert: in a cycle
    whose request to the messaging service gets no answer or an error
    status, the file system is afterwards what it was, so the next cycle
    compares against the old snapshot again. *)
Theorem refused_alert_keeps_snapshot :
  forall (BeautifulSoup : pystr -> option Soup.soup) (cfg : Monitor.config)
         (o : Monitor.net) (w : World.world),
    AlertFacts.accepted (Monitor.telegram o) = false ->
    World.w_fs (snd (MonitorFacts.guarded_check BeautifulSoup cfg o w)) = World.w_fs w.
Proof.
  intros BS cfg o w Ha.
  destruct (MonitorFacts.guarded_check BS cfg o w) as [r w'] eqn:E.
  apply (LoopFacts.guarded_check_refused_keeps_fs BS cfg o Ha w r w' E).
Qed.

(** The page shows a new fare; the messaging service answers 500. *)
Definition net_alert_refused : Monitor.net :=
  Monitor.mk_net (fun _ => Monitor.Response 200 Sample.fare_text_1999)
    (Monitor.Response 500 []).

Lemma refused_alert_keeps_snapshot_witness :
  World.w_fs (snd (MonitorFacts.guarded_check Sample.plain_text_parser default_config
                     net_alert_refused (world_with_snapshot (py "[1899.0, 493.55]"))))
  = fs_with_file store_path (py "[1899.0, 493.55]").
Proof.
  apply (refused_alert_keeps_snapshot Sample.plain_text_parser default_config
           net_alert_refused (world_with_snapshot (py "[1899.0, 493.55]"))).
  reflexivity.
Defined.



(** X5 - A snapshot file whose bytes are no text is not degraded to "no
    data": the [UnicodeDecodeError] of the read is neither a
    [JSONDecodeError] nor an [IOError], so [load_last] raises it; the cycle
    ends in its handler with an error logged, nothing posted and the file
    system untouched. *)
Theorem undecodable_snapshot_fails_the_cycle :
  forall (BeautifulSoup : pystr -> option Soup.soup) (cfg : Monitor.config)
         (o : Monitor.net) (w : World.world) (base taxes : PyFloat.pyfloat),
    World.node_at (World.w_fs w) (Monitor.store_f cfg) = Some World.FileUndecodable ->
    (exists e, Store.load_last (Monitor.store_f cfg) w = (Py.Raise e, w)
               /\ Py.exn_cls e = Py.UnicodeDecodeError)
    /\ (CycleFacts.extracted BeautifulSoup o base taxes ->
        exists problem,
          MonitorFacts.guarded_check BeautifulSoup cfg o w
          = (Py.Ok tt,
             World.mk_world (World.w_fs w)
               (World.w_out w
                ++ [World.HttpGet Monitor.TARGET_URL;
                    World.Logged World.INFO (Monitor.debug_msg base taxes);
                    World.Logged World.ERROR problem]))).
Proof.
  intros BS cfg o w base taxes Hn. split.
  - destruct (StoreFacts.load_undecodable _ w Hn) as (e & Hc & He).
    exists e. split; [exact He|exact Hc].
  - intros Hx.
    destruct (StoreFacts.load_undecodable _ (CycleFacts.after_extraction w base taxes) Hn)
      as (e & Hc & He).
    eexists. unfold MonitorFacts.guarded_check, World.try_except.
    rewrite (CycleFacts.check_extracted BS cfg o w base taxes Hx).
    unfold Monitor.compare_and_alert. unfold World.bindM at 1. rewrite He.
    unfold Py.caught_by. cbn [existsb]. rewrite Hc.
    unfold World.emit, CycleFacts.after_extraction. cbn [World.w_fs World.w_out].
    cbn [Py.subclass Py.class_eqb Py.parent orb].
    rewrite <- app_assoc. reflexivity.
Qed.

Definition world_with_binary_snapshot : World.world :=
  World.mk_world (World.mk_fs {[ store_path := World.FileUndecodable ]} ∅) [].

Lemma undecodable_snapshot_fails_the_cycle_witness :
  exists problem,
    MonitorFacts.guarded_check Sample.plain_text_parser default_config
      (net_ok Sample.fare_text) world_with_binary_snapshot
    = (Py.Ok tt,
       World.mk_world (World.w_fs world_with_binary_snapshot)
         ([] ++ [World.HttpGet Monitor.TARGET_URL;
                 World.Logged World.INFO (Monitor.debug_msg f1899 f493_55);
                 World.Logged World.ERROR problem])).
Proof.
  destruct (undecodable_snapshot_fails_the_cycle Sample.plain_text_parser default_config
              (net_ok Sample.fare_text) world_with_binary_snapshot f1899 f493_55) as (_ & H).
  - reflexivity.
  - apply H. exists 200%Z, Sample.fare_text. vm_compute. repeat split.
Defined.

(* ===================================================================== *)
(** * The store, operation by operation *)
(* ===================================================================== *)

Module StoreLaws.
Import Py Json World Store StoreFacts SaveFacts.

Definition save_warning (e : exn) : event :=
  Printed (py "Warning: Could not save price data: " ++ exn_msg e).

Lemma makedirs_outcomes d w :
  (exists e, makedirs d w = (Raise e, w) /\ exn_cls e = OSError
             /\ (bool_decide (d ∈ unwritable (w_fs w)) = true
                 \/ exists n, node_at (w_fs w) d = Some n /\ n <> Directory))
  \/ (exists fs1,
        makedirs d w = (Ok tt, mk_world fs1 (w_out w))
        /\ bool_decide (d ∈ unwritable (w_fs w)) = false
        /\ (node_at (w_fs w) d = Some Directory \/ node_at (w_fs w) d = None)
        /\ unwritable fs1 = unwritable (w_fs w)
        /\ (forall p, p <> d -> node_at fs1 p = node_at (w_fs w) p)
        /\ node_at fs1 d = Some Directory).
Proof.
  unfold makedirs. cbv zeta. destruct (bool_decide (d ∈ unwritable (w_fs w))) eqn:Hd.
  { left. eexists. split; [reflexivity|]. split; [reflexivity|]. auto. }
  destruct (node_at (w_fs w) d) as [n|] eqn:Hn.
  - assert (Hfile : n <> Directory ->
                    (exists e, (Raise (mk_exn OSError (py "File exists")), w) = (@Raise unit e, w)
                               /\ exn_cls e = OSError
                               /\ (false = true
                                   \/ exists n0, Some n = Some n0 /\ n0 <> Directory))).
    { intros Hne. eexists. split; [reflexivity|]. split; [reflexivity|].
      right. exists n. auto. }
    destruct n; try (left; apply Hfile; discriminate).
    right. exists (w_fs w). destruct w as [fs out]. cbn [w_fs w_out] in *.
    split; [reflexivity|]. split; [reflexivity|]. split; [now left|].
    split; [reflexivity|]. split; [reflexivity|exact Hn].
  - right. eexists. split; [reflexivity|]. split; [reflexivity|]. split; [now right|].
    split; [reflexivity|]. split.
    + intros p Hp. apply node_at_insert_ne. congruence.
    + apply node_at_insert_eq. destruct (str_eqb d (py ".")) eqn:E; [|reflexivity].
      unfold node_at in Hn. rewrite E in Hn. discriminate.
Qed.


Lemma save_last_unfold path data w :
  save_last path data w
  = match makedirs (save_dir path) w with
    | (Ok _, w1) =>
        match write_text path (dumps_indent2 data) w1 with
        | (Ok _, w2) => (Ok tt, w2)
        | (Raise e, w2) =>
            if caught_by [OSError] e then emit (save_warning e) w2 else (Raise e, w2)
        end
    | (Raise e, w1) =>
        if caught_by [OSError] e then emit (save_warning e) w1 else (Raise e, w1)
    end.
Proof.
  unfold save_last, try_except, bindM. fold (save_dir path).
  destruct (makedirs (save_dir path) w) as [[[]|e] w1]; [|reflexivity].
  destruct (write_text path (dumps_indent2 data) w1) as [[[]|e] w2]; reflexivity.
Qed.

Lemma caught_os_error e : exn_cls e = OSError -> caught_by [OSError] e = true.
Proof. intros H. unfold caught_by. rewrite H. reflexivity. Qed.


End StoreLaws.




(* ===================================================================== *)
(** * The two requests *)
(* ===================================================================== *)

Module NetFacts.
Import Py World Monitor StoreFacts MonitorFacts.
Local Open Scope Z_scope.




Lemma raise_for_status_ok st :
  raise_for_status st = Ok tt <-> (st < 400 \/ 600 <= st).
Proof.
  unfold raise_for_status.
  destruct (Z.leb_spec 400 st), (Z.ltb_spec st 600); cbn; split; try reflexivity;
    try discriminate; lia.
Qed.


End NetFacts.


(** X9 - [send_telegram] makes exactly one POST, to the [sendMessage]
    address of the token, with the chat id and the text; it returns
    normally exactly when the request is answered with a status below 400
    or from 600 on (a 3xx answer is no error), and raises otherwise. *)
Theorem send_telegram_outcome :
  forall (token chat message : pystr) (answer : Monitor.reply) (w : World.world),
    exists r,
      Monitor.send_telegram token chat message answer w
      = (r, StoreFacts.with_event w
              (World.HttpPost (py "https://api.telegram.org/bot" ++ token ++ py "/sendMessage")
                 chat message))
      /\ (r = Py.Ok tt
          <-> exists st body, answer = Monitor.Response st body /\ (st < 400 \/ 600 <= st)%Z).
Proof.
  intros token chat message answer w.
  unfold Monitor.send_telegram, World.bindM, World.emit, World.raise, World.lift.
  cbv beta iota zeta.
  destruct answer as [msg|st body].
  - eexists. split; [reflexivity|]. split; [discriminate|].
    intros (st & body & H & _). discriminate.
  - destruct (Monitor.raise_for_status st) as [[]|e] eqn:Hs.
    + eexists. split; [reflexivity|]. split; [|reflexivity].
      intros _. exists st, body. split; [reflexivity|].
      now apply NetFacts.raise_for_status_ok.
    + eexists. split; [reflexivity|]. split; [discriminate|].
      intros (st' & body' & [= <- <-] & Hr).
      apply NetFacts.raise_for_status_ok in Hr. congruence.
Qed.

(* ===================================================================== *)
(** * The comparison, value by value *)
(* ===================================================================== *)

Module CompareFacts.
Import Py PyFloat Json Monitor.

Lemma eqb_nan_l y : eqb nan y = false.
Proof. reflexivity. Qed.

Lemma eqb_nan_r x : eqb x nan = false.
Proof. destruct x; reflexivity. Qed.




End CompareFacts.



(* ===================================================================== *)
(** * White space in strategy 3 *)
(* ===================================================================== *)

Module SpaceFacts.
Import Re.
Local Open Scope N_scope.

(** Every white-space character is the plain space, and no two stand
    side by side. *)
Fixpoint single_spaced (s : pystr) : bool :=
  match s with
  | [] => true
  | c :: s' =>
      (negb (is_space c)
       || (cp_eqb c 32 && match s' with c' :: _ => negb (is_space c') | [] => true end))
      && single_spaced s'
  end.

Lemma collapse_cons_other c s :
  is_space c = false -> collapse_spaces (c :: s) = c :: collapse_spaces s.
Proof. intros H. cbn [collapse_spaces]. now rewrite H. Qed.

Lemma collapse_single_spaced s : single_spaced (collapse_spaces s) = true.
Proof.
  induction s as [|c s IH]; [reflexivity|].
  cbn [collapse_spaces]. destruct (is_space c) eqn:Hc.
  - destruct s as [|c' s'].
    + reflexivity.
    + destruct (is_space c') eqn:Hc'; [exact IH|].
      rewrite (collapse_cons_other c' s' Hc') in *.
      cbn [single_spaced] in *. rewrite Hc' in *. cbn in *. exact IH.
  - cbn [single_spaced]. rewrite Hc. cbn. exact IH.
Qed.

Lemma collapse_fixed s : single_spaced s = true -> collapse_spaces s = s.
Proof.
  induction s as [|c s IH]; [reflexivity|].
  cbn [single_spaced]. rewrite andb_true_iff. intros [Hc Hs].
  cbn [collapse_spaces]. destruct (is_space c) eqn:E.
  - cbn in Hc. apply andb_true_iff in Hc as [Hc32 Hnext]. apply cp_eqb_eq in Hc32. subst c.
    destruct s as [|c' s']; [reflexivity|].
    apply negb_true_iff in Hnext. rewrite Hnext. now rewrite (IH Hs).
  - now rewrite (IH Hs).
Qed.

Lemma collapse_keeps_other s :
  List.filter (fun c => negb (is_space c)) (collapse_spaces s)
  = List.filter (fun c => negb (is_space c)) s.
Proof.
  induction s as [|c s IH]; [reflexivity|].
  cbn [collapse_spaces]. destruct (is_space c) eqn:Hc.
  - cbn [List.filter]. rewrite Hc. cbn [negb].
    destruct s as [|c' s']; [reflexivity|].
    destruct (is_space c') eqn:Hc'; [exact IH|].
    cbn [List.filter]. replace (is_space 32) with true by reflexivity. cbn [negb]. exact IH.
  - cbn [List.filter]. rewrite Hc. cbn [negb]. now rewrite IH.
Qed.

End SpaceFacts.

(** X12 - The normalisation of line 154 leaves a text in which every
    white-space character is a plain space and no two of them are
    adjacent; it keeps all other characters in their order; and applying
    it again changes nothing, so strategy 3 reads a page and its
    normalised text alike. *)
Theorem whitespace_is_normalised :
  forall (html : pystr),
    SpaceFacts.single_spaced (Re.collapse_spaces html) = true
    /\ List.filter (fun c => negb (is_space c)) (Re.collapse_spaces html)
       = List.filter (fun c => negb (is_space c)) html
    /\ Re.collapse_spaces (Re.collapse_spaces html) = Re.collapse_spaces html
    /\ Extractor.strategy3 (Re.collapse_spaces html) = Extractor.strategy3 html.
Proof.
  intros html.
  assert (Hi : Re.collapse_spaces (Re.collapse_spaces html) = Re.collapse_spaces html)
    by (apply SpaceFacts.collapse_fixed, SpaceFacts.collapse_single_spaced).
  split; [apply SpaceFacts.collapse_single_spaced|].
  split; [apply SpaceFacts.collapse_keeps_other|].
  split; [exact Hi|].
  unfold Extractor.strategy3. cbv zeta. now rewrite Hi.
Qed.


(* ===================================================================== *)
(** * Strategy 1 on a well-formed page *)
(* ===================================================================== *)

Module Strategy1Facts.
Import Py PyFloat Json Soup Extractor.






End Strategy1Facts.



(* ===================================================================== *)
(** * What group 1 of a pattern can hold *)
(* ===================================================================== *)

Module GroupFacts.
Import Re ReFacts.
Local Open Scope N_scope.

Inductive phase := PhBefore | PhInside | PhAfter.

Section Shape.

Variable icase : bool.
Variable allowed : codepoint -> bool.

(** Every character set between the parentheses lies within [allowed]. *)
Fixpoint shape (r : regex) (ph : phase) : Prop :=
  match r with
  | [] => True
  | GroupStart :: r' => shape r' PhInside
  | GroupEnd :: r' => shape r' PhAfter
  | Atom cs _ :: r' =>
      (ph = PhInside -> forall ch, cset_mem icase cs ch = true -> allowed ch = true)
      /\ shape r' ph
  end.

Definition taken (g : gstate) : pystr :=
  match g with
  | GBefore => []
  | GOpen acc => acc
  | GDone t => t
  end.

Definition inv (ph : phase) (g : gstate) : Prop :=
  forallb allowed (taken g) = true
  /\ (forall acc, g = GOpen acc -> ph = PhInside).

Lemma inv_push ph g cs ch :
  (ph = PhInside -> forall c, cset_mem icase cs c = true -> allowed c = true) ->
  cset_mem icase cs ch = true -> inv ph g -> inv ph (push ch g).
Proof.
  intros Hcs Hm [Ht Hp]. destruct g as [|acc|t]; cbn [push]; split; auto.
  - cbn [taken forallb]. cbn [taken] in Ht. rewrite Ht, andb_true_r.
    apply (Hcs (Hp acc eq_refl) ch Hm).
  - intros acc' _. apply (Hp acc eq_refl).
Qed.

Lemma forallb_rev (l : pystr) : forallb allowed (rev l) = forallb allowed l.
Proof.
  induction l as [|c l IH]; [reflexivity|].
  cbn [rev forallb]. rewrite forallb_app, IH. cbn. now rewrite andb_true_r, andb_comm.
Qed.

Lemma inv_group1 ph g : inv ph g -> forallb allowed (group1 g) = true.
Proof.
  intros [Ht _]. destruct g as [|acc|t]; cbn [group1 taken] in *; auto.
  now rewrite forallb_rev.
Qed.

Lemma star_greedy_allowed ph cs k :
  (ph = PhInside -> forall c, cset_mem icase cs c = true -> allowed c = true) ->
  (forall g s x, inv ph g -> k g s = Some x -> forallb allowed x = true) ->
  forall s g x, inv ph g -> star_greedy icase cs k g s = Some x -> forallb allowed x = true.
Proof.
  intros Hcs Hk. induction s as [|ch s IH]; intros g x Hg H; cbn [star_greedy] in H.
  - apply (Hk g [] x Hg H).
  - destruct (cset_mem icase cs ch) eqn:Hm; [|apply (Hk g _ x Hg H)].
    destruct (star_greedy icase cs k (push ch g) s) as [r|] eqn:Hr.
    + injection H as <-. apply (IH (push ch g) r); [|exact Hr].
      now apply (inv_push ph g cs ch).
    + apply (Hk g _ x Hg H).
Qed.

(** Group 1 of a match holds allowed characters only. *)
Lemma match_here_allowed r :
  forall ph g s x,
    shape r ph -> inv ph g -> match_here icase r g s = Some x -> forallb allowed x = true.
Proof.
  induction r as [|it r IH]; intros ph g s x Hs Hg H.
  - injection H as <-. now apply (inv_group1 ph).
  - destruct it as [cs q| |].
    + destruct Hs as [Hcs Hs]. destruct q; cbn [match_here] in H.
      * destruct s as [|ch s]; [discriminate|].
        destruct (cset_mem icase cs ch) eqn:Hm; [|discriminate].
        apply (IH ph (push ch g) s x Hs); [|exact H]. now apply (inv_push ph g cs ch).
      * destruct s as [|ch s]; [apply (IH ph g [] x Hs Hg H)|].
        destruct (cset_mem icase cs ch) eqn:Hm; [|apply (IH ph g _ x Hs Hg H)].
        destruct (match_here icase r (push ch g) s) as [y|] eqn:Hy.
        -- injection H as <-. apply (IH ph (push ch g) s y Hs); [|exact Hy].
           now apply (inv_push ph g cs ch).
        -- apply (IH ph g _ x Hs Hg H).
      * apply (star_greedy_allowed ph cs (match_here icase r) Hcs
                 (fun g0 s0 x0 => IH ph g0 s0 x0 Hs) s g x Hg H).
      * destruct s as [|ch s]; [discriminate|].
        destruct (cset_mem icase cs ch) eqn:Hm; [|discriminate].
        apply (star_greedy_allowed ph cs (match_here icase r) Hcs
                 (fun g0 s0 x0 => IH ph g0 s0 x0 Hs) s (push ch g) x); [|exact H].
        now apply (inv_push ph g cs ch).
    + cbn [match_here] in H. apply (IH PhInside (GOpen []) s x Hs); [|exact H].
      split; [reflexivity|]. reflexivity.
    + cbn [match_here] in H. apply (IH PhAfter (GDone (group1 g)) s x Hs); [|exact H].
      split; [apply (inv_group1 ph g Hg)|]. discriminate.
Qed.

Lemma search_allowed r s x :
  shape r PhBefore -> search icase r s = Some x -> forallb allowed x = true.
Proof.
  intros Hs. induction s as [|c s IH]; cbn [search]; intros H.
  - destruct (match_here icase r GBefore []) as [y|] eqn:Hy; [|discriminate].
    injection H as <-. apply (match_here_allowed r PhBefore GBefore [] y Hs); [|exact Hy].
    split; [reflexivity|discriminate].
  - destruct (match_here icase r GBefore (c :: s)) as [y|] eqn:Hy; [|apply (IH H)].
    injection H as <-. apply (match_here_allowed r PhBefore GBefore (c :: s) y Hs); [|exact Hy].
    split; [reflexivity|discriminate].
Qed.

End Shape.

Lemma digit_mem b c : cset_mem b digit c = is_ascii_digit c.
Proof. reflexivity. Qed.

Lemma dot_mem b c : cset_mem b (CChar 46) c = cp_eqb c 46.
Proof. cbn [cset_mem]. apply lit_match_uncased. lia. Qed.

Ltac shape_tac :=
  cbn -[cset_mem digit_comma digit]; repeat split; try discriminate;
  intros _ ch;
  rewrite ?digit_comma_mem, ?digit_mem, ?dot_mem;
  unfold amount_char, is_digit_or_comma;
  intros ->; rewrite ?orb_true_r; reflexivity.

Lemma shape_fare_pp b : shape b is_digit_or_comma re_fare_pp PhBefore.
Proof. shape_tac. Qed.

Lemma shape_json_price b : shape b is_digit_or_comma re_json_price PhBefore.
Proof. shape_tac. Qed.

Lemma shape_price_from b : shape b is_digit_or_comma re_price_from PhBefore.
Proof. shape_tac. Qed.

Lemma shape_dollar_amount b : shape b amount_char re_dollar_amount PhBefore.
Proof. shape_tac. Qed.

Lemma shape_taxes b : shape b amount_char re_taxes PhBefore.
Proof. shape_tac. Qed.

Lemma shape_plus_taxes b : shape b amount_char re_plus_taxes PhBefore.
Proof. shape_tac. Qed.

Lemma shape_taxes_and_fees b : shape b amount_char re_taxes_and_fees PhBefore.
Proof. shape_tac. Qed.

End GroupFacts.

(* ===================================================================== *)
(** * The numbers read from a pattern's group *)
(* ===================================================================== *)

Module UnsignedFacts.
Import Py PyFloat Numeral Json Extractor ReFacts GroupFacts.
Local Open Scope N_scope.

(** Zero, a positive number or positive infinity: no minus sign and not
    NaN. *)
Definition unsigned (x : pyfloat) : bool :=
  match x with
  | S754_nan => false
  | S754_zero s | S754_infinity s | S754_finite s _ _ => negb s
  end.

Lemma forallb_incl (P : codepoint -> bool) (l l' : pystr) :
  (forall c, In c l' -> In c l) -> forallb P l = true -> forallb P l' = true.
Proof.
  intros Hi H. apply forallb_forall. intros c Hc.
  apply (proj1 (forallb_forall P l) H c (Hi c Hc)).
Qed.

Lemma lstrip_incl s c : In c (lstrip s) -> In c s.
Proof.
  induction s as [|a s IH]; cbn [lstrip]; [tauto|].
  destruct (is_space a); [|tauto]. intros H. right. apply (IH H).
Qed.

Lemma strip_incl s c : In c (strip s) -> In c s.
Proof.
  unfold strip. intros H. apply in_rev in H. apply lstrip_incl in H.
  apply in_rev in H. now apply lstrip_incl in H.
Qed.

Lemma drop_underscores_incl s c : In c (drop_underscores s) -> In c s.
Proof. unfold drop_underscores. intros H. now apply filter_In in H. Qed.

Lemma remove_commas_incl s c : In c (remove_commas s) -> In c s.
Proof. unfold remove_commas. intros H. now apply filter_In in H. Qed.

Lemma take_sign_other c l :
  c <> 45 -> c <> 43 -> take_sign (c :: l) = (false, c :: l).
Proof.
  intros H1 H2. unfold take_sign.
  destruct c as [|p]; [reflexivity|].
  do 6 (try destruct p as [p|p|]); try reflexivity; contradiction.
Qed.

Lemma str_eqb_head_ne c l d m : c <> d -> str_eqb (c :: l) (d :: m) = false.
Proof.
  intros H. cbn [str_eqb]. destruct (cp_eqb c d) eqn:E; [|reflexivity].
  apply Text.cp_eqb_eq in E. contradiction.
Qed.

Lemma amount_char_bound c :
  amount_char c = true -> 48 <= c <= 57 \/ c = 44 \/ c = 46.
Proof.
  unfold amount_char, is_ascii_digit, in_range, cp_eqb. bprop. lia.
Qed.

Lemma ascii_lower_amount c : amount_char c = true -> ascii_lower c = c.
Proof.
  intros H. apply amount_char_bound in H. unfold ascii_lower, in_range.
  destruct (65 <=? c) eqn:E; [apply N.leb_le in E; lia|reflexivity].
Qed.

Lemma of_decimal_unsigned d e : unsigned (of_decimal false d e) = true.
Proof.
  assert (Hn : forall s n k, unsigned (nearest_at s false n k) = true).
  { intros s n k. unfold nearest_at. cbv zeta.
    repeat match goal with
           | |- context [if ?b then _ else _] => destruct b
           end; reflexivity. }
  unfold of_decimal, nearest.
  destruct (d =? 0)%Z; [reflexivity|]. destruct (0 <=? e)%Z; apply Hn.
Qed.

Lemma decimal_numeral_unsigned s x :
  decimal_numeral false s = Some x -> unsigned x = true.
Proof.
  unfold decimal_numeral.
  destruct (span_digits s) as [ip r1].
  destruct (match r1 with 46 :: r => span_digits r | _ => ([], r1) end) as [fp r2].
  destruct (List.app ip fp) as [|c ds]; [discriminate|].
  destruct (take_exponent r2) as [ex r3]. destruct r3; [|discriminate].
  intros [= <-]. apply of_decimal_unsigned.
Qed.

(** [float(s)] of a string of digits, commas and dots has no sign and is
    not NaN. *)
Lemma float_of_str_unsigned s x :
  forallb amount_char s = true -> float_of_str s = Some x -> unsigned x = true.
Proof.
  intros Hs. unfold float_of_str. cbv zeta.
  destruct (underscores_ok 0 (strip s)); [|discriminate].
  assert (Hb : forallb amount_char (drop_underscores (strip s)) = true).
  { apply (forallb_incl amount_char s); [|exact Hs].
    intros c Hc. apply strip_incl. now apply drop_underscores_incl. }
  destruct (drop_underscores (strip s)) as [|c l].
  - cbn. discriminate.
  - cbn [forallb] in Hb. apply andb_true_iff in Hb as [Hc Hl].
    pose proof (amount_char_bound c Hc) as Hr.
    rewrite take_sign_other by lia.
    cbn [map]. rewrite (ascii_lower_amount c Hc).
    change (py "inf") with [105; 110; 102].
    change (py "infinity") with [105; 110; 102; 105; 110; 105; 116; 121].
    change (py "nan") with [110; 97; 110].
    rewrite !str_eqb_head_ne by lia.
    cbn [orb]. apply decimal_numeral_unsigned.
Qed.

Lemma float_of_group_unsigned g x :
  forallb amount_char g = true -> float_of_group g = Ok x -> unsigned x = true.
Proof.
  intros Hg. unfold float_of_group, float_of_json.
  destruct (float_of_str (remove_commas g)) as [y|] eqn:Hy; [|discriminate].
  intros [= <-]. apply (float_of_str_unsigned (remove_commas g)); [|exact Hy].
  apply (forallb_incl amount_char g); [|exact Hg]. apply remove_commas_incl.
Qed.

Lemma digit_or_comma_is_amount s :
  forallb is_digit_or_comma s = true -> forallb amount_char s = true.
Proof.
  intros H. apply forallb_forall. intros c Hc.
  pose proof (proj1 (forallb_forall _ s) H c Hc) as Hd.
  unfold amount_char. unfold is_digit_or_comma in Hd. now rewrite Hd.
Qed.

Definition amount_pattern (p : Re.regex) : Prop :=
  shape true amount_char p PhBefore.

Lemma fare_is_amount_pattern p :
  shape true is_digit_or_comma p PhBefore -> forall s g,
  Re.search true p s = Some g -> forallb amount_char g = true.
Proof.
  intros Hp s g H. apply digit_or_comma_is_amount.
  apply (search_allowed true is_digit_or_comma p s g Hp H).
Qed.

Lemma found_unsigned (g : pystr) (r : option pyfloat) :
  forallb amount_char g = true ->
  bind (float_of_group g) (fun x => Ok (Some x)) = Ok r ->
  match r with Some x => unsigned x = true | None => True end.
Proof.
  intros Hg. destruct (float_of_group g) as [x|e] eqn:Hx; cbn [bind]; [|discriminate].
  intros [= <-]. apply (float_of_group_unsigned g x Hg Hx).
Qed.

Lemma first_match_unsigned ps text r :
  Forall (fun p => forall s g, Re.search true p s = Some g -> forallb amount_char g = true) ps ->
  first_match ps text = Ok r ->
  match r with Some x => unsigned x = true | None => True end.
Proof.
  induction 1 as [|p ps Hp _ IH]; cbn [first_match].
  - now intros [= <-].
  - destruct (Re.search true p text) as [g|] eqn:Hg; [|exact IH].
    apply (found_unsigned g r (Hp text g Hg)).
Qed.

Lemma fare_patterns_amounts :
  Forall (fun p => forall s g, Re.search true p s = Some g -> forallb amount_char g = true)
    fare_patterns.
Proof.
  unfold fare_patterns. repeat constructor.
  - apply fare_is_amount_pattern, shape_fare_pp.
  - apply fare_is_amount_pattern, shape_json_price.
  - apply fare_is_amount_pattern, shape_price_from.
Qed.

Lemma tax_patterns_amounts :
  Forall (fun p => forall s g, Re.search true p s = Some g -> forallb amount_char g = true)
    tax_patterns.
Proof.
  unfold tax_patterns. repeat constructor; intros s g H.
  - apply (search_allowed true amount_char _ s g (shape_taxes true) H).
  - apply (search_allowed true amount_char _ s g (shape_plus_taxes true) H).
  - apply (search_allowed true amount_char _ s g (shape_taxes_and_fees true) H).
Qed.

Lemma s2_base_unsigned elems r :
  s2_base elems = Ok r ->
  match r with Some x => unsigned x = true | None => True end.
Proof.
  induction elems as [|el rest IH]; cbn [s2_base].
  - now intros [= <-].
  - destruct (Soup.text_of el) as [|c txt]; [exact IH|].
    destruct (Re.search true Re.re_fare_pp (c :: txt)) as [g|] eqn:Hg; [|exact IH].
    apply (found_unsigned g r).
    apply (fare_is_amount_pattern _ (shape_fare_pp true) _ g Hg).
Qed.

Lemma s2_taxes_unsigned sp r :
  s2_taxes sp = Ok r ->
  match r with Some x => unsigned x = true | None => True end.
Proof.
  unfold s2_taxes.
  destruct (Soup.find_in (Soup.soup_descendants sp) is_disclaimer_div) as [dv|];
    [|now intros [= <-]].
  destruct (Re.search true Re.re_taxes (Soup.text_of dv)) as [g|] eqn:Hg;
    [|now intros [= <-]].
  apply (found_unsigned g r).
  apply (search_allowed true amount_char _ _ g (shape_taxes true) Hg).
Qed.

Lemma both_unsigned (rb rt : result (option pyfloat)) b t :
  (forall r, rb = Ok r -> match r with Some x => unsigned x = true | None => True end) ->
  (forall r, rt = Ok r -> match r with Some x => unsigned x = true | None => True end) ->
  or_pass (bind rb (fun b0 => bind rt (fun t0 => Ok (both b0 t0)))) = Some (b, t) ->
  unsigned b = true /\ unsigned t = true.
Proof.
  intros Hb Ht. destruct rb as [ob|e]; cbn [bind or_pass]; [|discriminate].
  destruct rt as [ot|e]; cbn [bind or_pass]; [|discriminate].
  specialize (Hb ob eq_refl). specialize (Ht ot eq_refl).
  destruct ob as [b0|], ot as [t0|]; cbn [both]; try discriminate.
  intros [= <- <-]. now split.
Qed.

End UnsignedFacts.

(** X15 - Whatever the second or the third strategy of parse_price
    returns, both numbers come from a group of digits, commas and dots:
    neither is negative and neither is NaN (lines 131-143 and 158-183). *)
Theorem pattern_strategies_give_unsigned_numbers
    (BeautifulSoup : Text.pystr -> option Soup.soup) (html : Text.pystr)
    (b t : PyFloat.pyfloat) :
  Extractor.strategy2 BeautifulSoup html = Some (b, t)
  \/ Extractor.strategy3 html = Some (b, t) ->
  UnsignedFacts.unsigned b = true /\ UnsignedFacts.unsigned t = true.
Proof.
  intros [H|H].
  - unfold Extractor.strategy2 in H.
    destruct (BeautifulSoup html) as [sp|]; [|discriminate].
    apply (UnsignedFacts.both_unsigned _ _ b t) in H; [exact H| |].
    + intros r. apply UnsignedFacts.s2_base_unsigned.
    + intros r. apply UnsignedFacts.s2_taxes_unsigned.
  - unfold Extractor.strategy3 in H. cbv zeta in H.
    apply (UnsignedFacts.both_unsigned _ _ b t) in H; [exact H| |].
    + intros r. apply UnsignedFacts.first_match_unsigned, UnsignedFacts.fare_patterns_amounts.
    + intros r. apply UnsignedFacts.first_match_unsigned, UnsignedFacts.tax_patterns_amounts.
Qed.

Lemma pattern_strategies_give_unsigned_numbers_witness :
  Extractor.strategy3 Sample.fare_text = Some (f1899, f493_55)
  /\ UnsignedFacts.unsigned f1899 = true /\ UnsignedFacts.unsigned f493_55 = true.
Proof.
  assert (H : Extractor.strategy3 Sample.fare_text = Some (f1899, f493_55))
    by (vm_compute; reflexivity).
  split; [exact H|].
  apply (pattern_strategies_give_unsigned_numbers Sample.plain_text_parser
           Sample.fare_text f1899 f493_55).
  right. exact H.
Defined.

(* ===================================================================== *)
(** * How many requests a cycle makes *)
(* ===================================================================== *)

Module TrafficFacts.
Import Py PyFloat Json World Store Monitor.

Inductive kind := KGet | KPost.

Definition is_kind (k : kind) (e : event) : bool :=
  match e with
  | HttpGet _ => match k with KGet => true | KPost => false end
  | HttpPost _ _ _ => match k with KPost => true | KGet => false end
  | _ => false
  end.

(** The calls of [session.get] or of [requests.post] among the events. *)
Definition requests (k : kind) (evs : list event) : nat :=
  length (List.filter (is_kind k) evs).

(** [m] keeps the output it finds and adds at most [n] requests of kind
    [k] to it. *)
Definition adds {A} (k : kind) (n : nat) (m : M A) : Prop :=
  forall w, exists evs,
    w_out (snd (m w)) = w_out w ++ evs /\ (requests k evs <= n)%nat.

Lemma requests_app k a b : requests k (a ++ b) = (requests k a + requests k b)%nat.
Proof. unfold requests. now rewrite List.filter_app, length_app. Qed.

Lemma adds_le {A} k a b (m : M A) : (a <= b)%nat -> adds k a m -> adds k b m.
Proof. intros Hab Hm w. destruct (Hm w) as (evs & H1 & H2). exists evs. split; [exact H1|lia]. Qed.

Lemma adds_silent {A} k (m : M A) :
  (forall w, w_out (snd (m w)) = w_out w) -> adds k 0 m.
Proof. intros H w. exists []. rewrite H, app_nil_r. split; [reflexivity|cbn; lia]. Qed.

Lemma adds_ret {A} k (a : A) : adds k 0 (ret a).
Proof. now apply adds_silent. Qed.

Lemma adds_raise {A} k e : adds k 0 (@raise A e).
Proof. now apply adds_silent. Qed.

Lemma adds_lift {A} k (r : result A) : adds k 0 (lift r).
Proof. now apply adds_silent. Qed.

Lemma adds_emit k ev : adds k (if is_kind k ev then 1 else 0) (emit ev).
Proof.
  intros w. exists [ev]. split; [reflexivity|].
  unfold requests. cbn [List.filter]. destruct (is_kind k ev); cbn; lia.
Qed.

Lemma adds_bind {A B} k a b (m : M A) (f : A -> M B) :
  adds k a m -> (forall x, adds k b (f x)) -> adds k (a + b) (bindM m f).
Proof.
  intros Hm Hf w. unfold bindM. destruct (Hm w) as (e1 & H1 & L1).
  destruct (m w) as [[x|e] w1]; cbn [snd] in H1.
  - destruct (Hf x w1) as (e2 & H2 & L2). exists (e1 ++ e2).
    rewrite H2, H1, app_assoc, requests_app. split; [reflexivity|lia].
  - exists e1. cbn [snd]. split; [exact H1|lia].
Qed.

Lemma adds_try {A} k a b (body : M A) classes handler :
  adds k a body -> (forall e, adds k b (handler e)) ->
  adds k (a + b) (try_except body classes handler).
Proof.
  intros Hm Hf w. unfold try_except. destruct (Hm w) as (e1 & H1 & L1).
  destruct (body w) as [[x|e] w1]; cbn [snd] in H1.
  - exists e1. cbn [snd]. split; [exact H1|lia].
  - destruct (caught_by classes e).
    + destruct (Hf e w1) as (e2 & H2 & L2). exists (e1 ++ e2).
      rewrite H2, H1, app_assoc, requests_app. split; [reflexivity|lia].
    + exists e1. cbn [snd]. split; [exact H1|lia].
Qed.

Lemma adds_load_last k path : adds k 0 (load_last path).
Proof.
  unfold load_last. apply (adds_bind k 0 0).
  - now apply adds_silent.
  - intros fs. destruct (path_exists fs path); [|apply adds_ret].
    apply (adds_try k 0 0).
    + unfold json_load. apply (adds_bind k 0 0).
      * apply adds_silent. intros w. unfold read_text.
        now destruct (node_at (w_fs w) path) as [[| | |]|].
      * intros txt. destruct (loads txt); [apply adds_ret|apply adds_raise].
    + intros e. apply (adds_bind k 0 0); [apply (adds_emit k (Printed _))|].
      intros _. apply adds_ret.
Qed.

Lemma adds_save_last k path data : adds k 0 (save_last path data).
Proof.
  unfold save_last. apply (adds_try k 0 0).
  - apply (adds_bind k 0 0).
    + apply adds_silent. intros w. unfold makedirs. cbv zeta.
      destruct (bool_decide _); [reflexivity|].
      now destruct (node_at (w_fs w) _) as [[| | |]|].
    + intros _. apply adds_silent. intros w. unfold write_text. cbv zeta.
      destruct path; [reflexivity|].
      destruct (bool_decide _); [reflexivity|].
      now destruct (node_at (w_fs w) _) as [[| | |]|].
  - intros e. apply (adds_emit k (Printed _)).
Qed.

Lemma adds_fetch_html k url tries : adds k 1 (fetch_html url tries).
Proof.
  unfold fetch_html. apply (adds_bind k 1 0).
  - apply (adds_le k (if is_kind k (HttpGet url) then 1 else 0)); [|apply adds_emit].
    destruct k; cbn; lia.
  - intros _. apply (adds_try k 0 0); [|intros e; apply adds_raise].
    apply (adds_bind k 0 0); [apply adds_lift|]. intros [st body].
    apply (adds_bind k 0 0); [apply adds_lift|]. intros _. apply adds_ret.
Qed.

Lemma adds_fetch_html_posts url tries : adds KPost 0 (fetch_html url tries).
Proof.
  unfold fetch_html. apply (adds_bind KPost 0 0); [apply (adds_emit KPost (HttpGet url))|].
  intros _. apply (adds_try KPost 0 0); [|intros e; apply adds_raise].
  apply (adds_bind KPost 0 0); [apply adds_lift|]. intros [st body].
  apply (adds_bind KPost 0 0); [apply adds_lift|]. intros _. apply adds_ret.
Qed.

Lemma adds_send_telegram token chat msg answer :
  adds KGet 0 (send_telegram token chat msg answer)
  /\ adds KPost 1 (send_telegram token chat msg answer).
Proof.
  unfold send_telegram. cbv zeta. split.
  - apply (adds_bind KGet 0 0); [apply (adds_emit KGet (HttpPost _ _ _))|].
    intros _. destruct answer; [apply adds_raise|apply adds_lift].
  - apply (adds_bind KPost 1 0); [apply (adds_emit KPost (HttpPost _ _ _))|].
    intros _. destruct answer; [apply adds_raise|apply adds_lift].
Qed.

Lemma adds_compare_and_alert cfg o base taxes :
  adds KGet 0 (compare_and_alert cfg o base taxes)
  /\ adds KPost 1 (compare_and_alert cfg o base taxes).
Proof.
  unfold compare_and_alert. split.
  - apply (adds_bind KGet 0 0); [apply adds_load_last|]. intros last.
    apply (adds_bind KGet 0 0); [apply adds_lift|]. intros [|]; [|apply adds_ret].
    apply (adds_bind KGet 0 0); [apply adds_send_telegram|]. intros _. apply adds_save_last.
  - apply (adds_bind KPost 0 1); [apply adds_load_last|]. intros last.
    apply (adds_bind KPost 0 1); [apply adds_lift|]. intros [|].
    + apply (adds_bind KPost 1 0); [apply adds_send_telegram|]. intros _. apply adds_save_last.
    + apply (adds_le KPost 0 1); [lia|apply adds_ret].
Qed.

Lemma adds_sleep k secs : adds k 0 (sleep secs).
Proof.
  unfold sleep. destruct (secs <? 0)%Z; [apply adds_raise|].
  destruct (9223372036 <? secs)%Z; [apply adds_raise|]. apply (adds_emit k (Slept secs)).
Qed.

Section WithParser.

Variable BeautifulSoup : pystr -> option Soup.soup.

Lemma adds_cycle k cfg o : adds k 1 (cycle BeautifulSoup cfg o).
Proof.
  unfold cycle. apply (adds_bind k 1 0); [|intros _; apply adds_sleep].
  apply (adds_try k 1 0); [|intros e; apply (adds_emit k (Logged ERROR _))].
  unfold check. destruct k.
  - apply (adds_bind KGet 1 0); [apply adds_fetch_html|]. intros html.
    apply (adds_bind KGet 0 0); [apply adds_lift|]. intros [base taxes].
    apply (adds_bind KGet 0 0); [apply (adds_emit KGet (Logged INFO _))|]. intros _.
    apply adds_compare_and_alert.
  - apply (adds_bind KPost 0 1); [apply adds_fetch_html_posts|]. intros html.
    apply (adds_bind KPost 0 1); [apply adds_lift|]. intros [base taxes].
    apply (adds_bind KPost 0 1); [apply (adds_emit KPost (Logged INFO _))|]. intros _.
    apply adds_compare_and_alert.
Qed.

Lemma adds_loop k cfg os : adds k (length os) (loop BeautifulSoup cfg os).
Proof.
  induction os as [|o os IH]; cbn [loop length]; [apply adds_ret|].
  apply (adds_bind k 1 (length os)); [apply adds_cycle|]. intros _. exact IH.
Qed.

End WithParser.

End TrafficFacts.

(** X16 - Whatever the network, the page and the file system do, the
    first n turns of the loop of run keep the output that was there, call
    fetch_html's session.get at most n times and post at most n messages:
    one page request and at most one alert per cycle (lines 239-265). *)
Theorem loop_requests_are_bounded
    (BeautifulSoup : Text.pystr -> option Soup.soup)
    (cfg : Monitor.config) (os : list Monitor.net) (w : World.world) :
  exists evs,
    World.w_out (snd (Monitor.loop BeautifulSoup cfg os w)) = World.w_out w ++ evs
    /\ (TrafficFacts.requests TrafficFacts.KGet evs <= length os)%nat
    /\ (TrafficFacts.requests TrafficFacts.KPost evs <= length os)%nat.
Proof.
  destruct (TrafficFacts.adds_loop BeautifulSoup TrafficFacts.KGet cfg os w) as (e1 & H1 & L1).
  destruct (TrafficFacts.adds_loop BeautifulSoup TrafficFacts.KPost cfg os w) as (e2 & H2 & L2).
  exists e1. split; [exact H1|]. split; [exact L1|].
  rewrite H1 in H2. apply app_inv_head in H2. now subst e2.
Qed.

(* ===================================================================== *)
(** * A store that cannot be written *)
(* ===================================================================== *)

Module StuckStore.
Import Py PyFloat Json World Store Monitor StoreFacts MonitorFacts CycleFacts SaveFacts
  AlertFacts StoreLaws.

(** The path is a directory, or there is nothing at it and the system
    refuses to create it. *)
Definition store_stuck (fs : filesystem) (path : pystr) : Prop :=
  node_at fs path = Some Directory
  \/ (node_at fs path = None /\ path ∈ unwritable fs).

Lemma write_refused path text w :
  store_stuck (w_fs w) path ->
  exists e, write_text path text w = (Raise e, w) /\ exn_cls e = OSError.
Proof.
  intros Hs. unfold write_text. cbv zeta.
  destruct path as [|c p]; [eexists; split; reflexivity|].
  match goal with
  | |- context [if ?b then _ else _] => destruct b eqn:Hu
  end; [eexists; split; reflexivity|].
  destruct Hs as [Hd | [_ Hin]].
  - rewrite Hd. eexists; split; reflexivity.
  - apply bool_decide_eq_false in Hu. contradiction.
Qed.

Lemma load_stuck path w :
  store_stuck (w_fs w) path ->
  exists pre, load_last path w = (Ok JNull, mk_world (w_fs w) (w_out w ++ pre)).
Proof.
  intros [Hd | [Hn _]].
  - destruct (load_os_error path w Directory Hd (or_intror eq_refl)) as (e & _ & He).
    exists [load_warning e]. exact He.
  - exists []. rewrite (load_missing path w Hn), app_nil_r. now destruct w.
Qed.

Lemma save_stuck path data w :
  store_stuck (w_fs w) path ->
  exists fs' e,
    save_last path data w = (Ok tt, mk_world fs' (w_out w ++ [save_warning e]))
    /\ store_stuck fs' path.
Proof.
  intros Hs. rewrite save_last_unfold.
  destruct (makedirs_outcomes (save_dir path) w)
    as [(e & Hm & Hc & _) | (fs1 & Hm & _ & _ & Hunw & Hother & Hd)]; rewrite Hm.
  - rewrite (caught_os_error e Hc). exists (w_fs w), e. split; [reflexivity|exact Hs].
  - assert (Hs1 : store_stuck fs1 path).
    { destruct (decide (path = save_dir path)) as [E|E].
      - left. now rewrite E.
      - unfold store_stuck. now rewrite (Hother path E), Hunw. }
    destruct (write_refused path (dumps_indent2 data) (mk_world fs1 (w_out w)) Hs1)
      as (e & Hw & Hc).
    rewrite Hw, (caught_os_error e Hc). exists fs1, e. split; [reflexivity|exact Hs1].
Qed.

End StuckStore.

(** X17 - When the store path is a directory, or is missing and cannot be
    created, a cycle that extracts a pair posts the alert for it and
    leaves the store as stuck as it was: load_last gives None, the failed
    save_last only prints a warning, and so the next successful cycle
    alerts again (lines 194-214 and 250-260). *)
Theorem stuck_store_alerts_every_cycle :
  forall (BeautifulSoup : pystr -> option Soup.soup) (cfg : Monitor.config)
         (o : Monitor.net) (w : World.world) (base taxes : PyFloat.pyfloat),
    StuckStore.store_stuck (World.w_fs w) (Monitor.store_f cfg) ->
    CycleFacts.extracted BeautifulSoup o base taxes ->
    exists fs' pre rest,
      MonitorFacts.guarded_check BeautifulSoup cfg o w
      = (Py.Ok tt,
         World.mk_world fs'
           (World.w_out w ++ pre ++ [AlertFacts.alert_event cfg base taxes] ++ rest))
      /\ StuckStore.store_stuck fs' (Monitor.store_f cfg).
Proof.
  intros BS cfg o w base taxes Hs Hx.
  unfold MonitorFacts.guarded_check, World.try_except.
  rewrite (CycleFacts.check_extracted BS cfg o w base taxes Hx).
  destruct (StuckStore.load_stuck (Monitor.store_f cfg)
              (CycleFacts.after_extraction w base taxes) Hs) as (pre & Hl).
  rewrite (CycleFacts.compare_changed cfg o base taxes _ _ Json.JNull Hl eq_refl).
  unfold World.bindM.
  destruct (AlertFacts.accepted (Monitor.telegram o)) eqn:Ha.
  - rewrite (AlertFacts.send_accepted cfg o base taxes _ Ha).
    match goal with
    | |- context [Store.save_last ?p ?d ?w0] =>
        destruct (StuckStore.save_stuck p d w0 Hs) as (fs' & e & Hsv & Hs')
    end.
    rewrite Hsv.
    exists fs', ([World.HttpGet Monitor.TARGET_URL;
                  World.Logged World.INFO (Monitor.debug_msg base taxes)] ++ pre),
      [StoreLaws.save_warning e].
    split; [|exact Hs']. cbn [World.w_out World.w_fs StoreFacts.with_event
      CycleFacts.after_extraction]. now rewrite <- !app_assoc.
  - destruct (AlertFacts.send_refused cfg o base taxes
                (World.mk_world (World.w_fs (CycleFacts.after_extraction w base taxes))
                   (World.w_out (CycleFacts.after_extraction w base taxes) ++ pre)) Ha)
      as (e & He & Hsend).
    rewrite Hsend, (AlertFacts.every_class_is_exception_or_exit e He).
    exists (World.w_fs w), ([World.HttpGet Monitor.TARGET_URL;
                  World.Logged World.INFO (Monitor.debug_msg base taxes)] ++ pre),
      [World.Logged World.ERROR (py "Problem during check: " ++ Py.exn_msg e)].
    split; [|exact Hs]. unfold World.emit. cbn [World.w_out World.w_fs StoreFacts.with_event
      CycleFacts.after_extraction]. now rewrite <- !app_assoc.
Qed.

(** The store path is a directory. *)
Definition world_with_directory_store : World.world :=
  World.mk_world (World.mk_fs {[ store_path := World.Directory ]} ∅) [].

Lemma stuck_store_alerts_every_cycle_witness :
  exists fs' pre rest,
    MonitorFacts.guarded_check Sample.plain_text_parser default_config
      (net_ok Sample.fare_text) world_with_directory_store
    = (Py.Ok tt,
       World.mk_world fs'
         ([] ++ pre ++ [AlertFacts.alert_event default_config f1899 f493_55] ++ rest))
    /\ StuckStore.store_stuck fs' store_path.
Proof.
  apply (stuck_store_alerts_every_cycle Sample.plain_text_parser default_config
           (net_ok Sample.fare_text) world_with_directory_store f1899 f493_55).
  - left. reflexivity.
  - exists 200%Z, Sample.fare_text. vm_compute. repeat split.
Defined.

(* ===================================================================== *)
(** * Structured data that is no object *)
(* ===================================================================== *)

Module Strategy1Aborts.
Import Py PyFloat Json Soup Extractor Strategy1Facts.




End Strategy1Aborts.


